(** * The accrual and settlement engine of [main.py]

    A shallow embedding of the FastAPI backend in [src/main.py]: the strategy
    table and [calculate_earnings], the in-memory [user_sessions] dictionary
    with the three handlers [start_engine], [get_metrics] and [stop_engine],
    and the helper [mint_tokens].

    The embedding is of the module from line 3 on, as its functions are
    written.  Line 1 holds the title [FastAPI Backend], which is not a
    Python statement; nothing below is about importing the file.

    Conventions of the embedding.
    - Python [float] is IEEE-754 binary64; it is embedded as Rocq's primitive
      [float], whose operations are the same binary64 operations (round to
      nearest, ties to even).  Decimal literals denote the nearest binary64
      value in both languages.
    - [str] is embedded as [string] (a sequence of bytes); [lower] acts on
      the ASCII letters, which is the whole of the effect of [str.lower] on
      ASCII strings, hexadecimal wallet addresses among them.  The
      embedding is exact on these strings, and the statements about wallets
      are statements about them.
    - [user_sessions] is a [gmap string session].
    - Every call of [datetime.now().timestamp()] is an input of the handler
      that makes it, in evaluation order.
    - The web3 exchange inside [mint_tokens] (lines 161-185) is an input as
      well: a [chain_run] says how far the exchange got.
    - [print] appends a line to the [stdout] component of the state.  In
      the first part of the file every line is written; the module [Io]
      makes the outcome of each [print] an input, and the handlers of the
      first part are those of [Io] on a console that writes every line.
    - An integer constant that meets a float ([365 * 24 * 3600], [10**18],
      [5], [3600], [24], [0]) is written as the float it converts to; all of
      them convert exactly. *)

From Stdlib Require Import ZArith Bool Ascii String QArith Qabs.
From Stdlib Require Import Floats.PrimFloat Floats.FloatOps Floats.SpecFloat Floats.FloatAxioms.
From stdpp Require Import base option list gmap strings.

Set Warnings "-inexact-float".
#[local] Close Scope Q_scope.
#[local] Open Scope Z_scope.

(** ** Python values *)

Module Py.

(** The exceptions that occur in the modelled code.  [HTTPException] is
    FastAPI's; the next three are raised by the interpreter; [Web3Error]
    stands for whatever [Exception] a web3 call raises (connection errors,
    [TimeExhausted] of the receipt wait, ...).  [print] raises a
    [ValueError] on a closed stream and on a character the stream cannot
    encode ([UnicodeEncodeError] is a [ValueError]), and an [OSError] when
    the write fails. *)
Inductive exn : Type :=
| HTTPException (status_code : Z) (detail : string)
| OverflowError
| ValueError
| KeyError (key : string)
| AttributeError
| Web3Error (what : string)
| OSError (what : string).

(** The result of evaluating a piece of Python: a value, or a raised
    exception. *)
Inductive outcome (A : Type) : Type :=
| Returns (a : A)
| Raises (e : exn).
#[global] Arguments Returns {A} a.
#[global] Arguments Raises {A} e.

(** [x.lower()] on one ASCII character. *)
Definition lower_ascii (c : ascii) : ascii :=
  let n := N_of_ascii c in
  if ((65 <=? n) && (n <=? 90))%N then ascii_of_N (n + 32) else c.

(** [s.lower()]. *)
Fixpoint lower (s : string) : string :=
  match s with
  | EmptyString => EmptyString
  | String c s' => String (lower_ascii c) (lower s')
  end.

(** Truth value of a [str] (or [None]) in a condition: [None] and the empty
    string are false. *)
Definition truthy (x : option string) : bool :=
  match x with
  | None => false
  | Some EmptyString => false
  | Some (String _ _) => true
  end.

(** [int(x)] for a float [x]: truncation towards zero; [OverflowError] on an
    infinity and [ValueError] on a NaN. *)
Definition int (x : float) : outcome Z :=
  match Prim2SF x with
  | S754_nan => Raises ValueError
  | S754_infinity _ => Raises OverflowError
  | S754_zero _ => Returns 0
  | S754_finite s m e =>
      let a := if 0 <=? e then Z.shiftl (Z.pos m) e else Z.shiftr (Z.pos m) (- e) in
      Returns (if s then - a else a)
  end.

(** The builtin [sum] over floats, started at the integer [0].  The first
    item [x] is added as [0 + x]; from then on CPython keeps a C double. Up
    to CPython 3.11 the loop is a plain left-to-right addition. *)
Definition sum_plain (xs : list float) : float :=
  match xs with
  | [] => 0%float
  | x :: rest => fold_left PrimFloat.add rest (0 + x)%float
  end.

(** From CPython 3.12 on the loop is Neumaier's compensated summation: a
    running sum [f] and a compensation [c], added at the end when it is
    non-zero and finite. *)
Definition neumaier_step (st : float * float) (x : float) : float * float :=
  let '(f, c) := st in
  let t := (f + x)%float in
  if PrimFloat.leb (abs x) (abs f)
  then (t, (c + ((f - t) + x))%float)
  else (t, (c + ((x - t) + f))%float).

Definition is_finite (x : float) : bool :=
  match Prim2SF x with
  | S754_zero _ | S754_finite _ _ _ => true
  | _ => false
  end.

Definition sum_compensated (xs : list float) : float :=
  match xs with
  | [] => 0%float
  | x :: rest =>
      let '(f, c) := fold_left neumaier_step rest ((0 + x)%float, 0%float) in
      if negb (PrimFloat.eqb c 0) && is_finite c then (f + c)%float else f
  end.

End Py.
Import Py.

(** ** Module-level configuration *)

(** What the module fixes at import time: whether [w3] and [admin_account]
    were set (both start as [None]), and which of the two [sum] loops the
    interpreter has. *)
Record env : Type := {
  w3 : bool;
  admin_account : bool;
  compensated_sum : bool
}.

Definition py_sum (E : env) (xs : list float) : float :=
  if compensated_sum E then sum_compensated xs else sum_plain xs.

(** ** The strategy table and the accrual calculation *)

Record strategy : Type := { apy : float; weight : float }.

(** [STRATEGIES], in insertion order (the order of [.values()]). *)
Definition STRATEGIES : list (string * strategy) :=
  [ ("aave_lending"%string, {| apy := 0.85; weight := 0.15 |});
    ("compound"%string,     {| apy := 0.78; weight := 0.12 |});
    ("uniswap_v3"%string,   {| apy := 2.45; weight := 0.18 |});
    ("curve_stable"%string, {| apy := 1.25; weight := 0.10 |});
    ("yearn_vaults"%string, {| apy := 1.98; weight := 0.15 |});
    ("convex"%string,       {| apy := 3.12; weight := 0.10 |});
    ("balancer"%string,     {| apy := 1.67; weight := 0.08 |});
    ("sushiswap"%string,    {| apy := 2.89; weight := 0.05 |});
    ("mev_arb"%string,      {| apy := 4.25; weight := 0.03 |});
    ("flashloan"%string,    {| apy := 5.12; weight := 0.02 |});
    ("governance"%string,   {| apy := 0.95; weight := 0.01 |});
    ("staking"%string,      {| apy := 1.42; weight := 0.01 |}) ].

Definition AI_BOOST : float := 2.5.

(** [calculate_earnings(principal, seconds)]. *)
Definition calculate_earnings (E : env) (principal seconds : float) : float * float :=
  let total_apy :=
    (py_sum E (map (fun s => apy s.2 * weight s.2) STRATEGIES) * AI_BOOST)%float in
  let rate := (total_apy / (365 * 24 * 3600))%float in
  ((principal * rate * seconds)%float, total_apy).

(** ** Sessions and the state of the process *)

(** One entry of [user_sessions]: the dictionary with the keys ["start"],
    ["earned"] and ["last_mint"]. *)
Record session : Type := {
  start : float;
  earned : float;
  last_mint : float
}.

(** What [print] writes. *)
Inductive line : Type :=
| PrintMinting (amount : float) (wallet : string)
| PrintTx (tx_hash : string)
| PrintConfirmed (blockNumber : Z)
| PrintEtherscan (tx_hash : string)
| PrintFailed
| PrintError (e : exn)
| PrintMintError (e : exn).

Record world : Type := {
  user_sessions : gmap string session;
  stdout : list line
}.

Definition set_sessions (m : gmap string session) (W : world) : world :=
  {| user_sessions := m; stdout := stdout W |}.

Definition print (ls : list line) (W : world) : world :=
  {| user_sessions := user_sessions W; stdout := stdout W ++ ls |}.

(** ** The minting helper *)

(** How the web3 exchange of [mint_tokens] went (lines 161-185): an exception
    before the transaction hash was printed (building the contract, reading
    the gas price and the nonce, building, signing or sending the
    transaction), an exception after it (the wait for the receipt, bounded by
    120 seconds, or reading the receipt), or a receipt. *)
Inductive chain_run : Type :=
| FailsBeforeSend (e : exn)
| FailsAfterSend (tx_hash : string) (e : exn)
| Receipt (tx_hash : string) (status : Z) (blockNumber : Z).

(** A computation that prints and may raise: the lines printed so far and the
    outcome. *)
Definition printing (A : Type) : Type := list line * outcome A.

Definition ret {A} (a : A) : printing A := ([], Returns a).
Definition raise {A} (e : exn) : printing A := ([], Raises e).
(** [print(l)] when the line is written; [Io.say] is [print] with the
    write that fails as well. *)
Definition say (l : line) : printing unit := ([l], Returns tt).
Definition lift {A} (o : outcome A) : printing A := ([], o).

Definition bind {A B} (c : printing A) (k : A -> printing B) : printing B :=
  match c with
  | (ls, Returns a) => let '(ls', r) := k a in (ls ++ ls', r)
  | (ls, Raises e) => (ls, Raises e)
  end.

(** [try: body except Exception as e: handler]. *)
Definition try_except {A} (body : printing A) (handler : exn -> printing A)
  : printing A :=
  match body with
  | (ls, Returns a) => (ls, Returns a)
  | (ls, Raises e) => let '(ls', r) := handler e in (ls ++ ls', r)
  end.

Declare Scope printing_scope.
Delimit Scope printing_scope with printing.
Notation "x <- c ;; k" := (bind c (fun x => k))
  (at level 100, c at next level, right associativity) : printing_scope.
Notation "c ;;; k" := (bind c (fun _ => k))
  (at level 100, right associativity) : printing_scope.

(** The web3 part of [mint_tokens], from the first [print] to the last. *)
Definition mint_exchange (wallet : string) (amount : float) (run : chain_run)
  : printing (option string) :=
  (say (PrintMinting amount wallet) ;;;
   match run with
   | FailsBeforeSend e => raise e
   | FailsAfterSend tx_hash e => say (PrintTx tx_hash) ;;; raise e
   | Receipt tx_hash status blockNumber =>
       say (PrintTx tx_hash) ;;;
       (if status =? 1
        then say (PrintConfirmed blockNumber) ;;; say (PrintEtherscan tx_hash)
        else say PrintFailed) ;;;
       ret (Some tx_hash)
   end)%printing.

(** [mint_tokens(wallet, amount)].  [None] is Python's [None], [Some h] the
    hexadecimal transaction hash. *)
Definition mint_tokens (E : env) (run : chain_run) (wallet : string) (amount : float)
  : printing (option string) :=
  if negb (w3 E) || negb (admin_account E) then ret None
  else
    try_except
      (token_amount <- lift (Py.int (amount * 1e18)%float) ;;
       if token_amount <=? 0 then ret None
       else mint_exchange wallet amount run)%printing
      (fun e => say (PrintError e) ;;; ret None)%printing.

(** ** The handlers *)

Record EngineRequest : Type := {
  walletAddress : string;
  miningContract : string;
  yieldAggregator : string;
  strategies : list string
}.

Record start_reply : Type := {
  start_success : bool;
  message : string;
  boost : float
}.

(** The dictionary both [start_engine] and [get_metrics] store for a wallet;
    the clock is read once for ["start"] and once more for ["last_mint"]. *)
Definition new_session (t_start t_last_mint : float) : session :=
  {| start := t_start; earned := 0; last_mint := t_last_mint |}.

(** [start_engine(req)]: POST /api/engine/start. *)
Definition start_engine (req : EngineRequest) (t_start t_last_mint : float) (W : world)
  : start_reply * world :=
  let wallet := lower (walletAddress req) in
  ({| start_success := true; message := "Engine started"; boost := AI_BOOST |},
   set_sessions (<[wallet := new_session t_start t_last_mint]> (user_sessions W)) W).

(** The reply of [get_metrics].  [total_apy] holds [apy * 100], the number
    that the source renders with two decimals and a percent sign. *)
Record metrics : Type := {
  totalProfit : float;
  hourlyRate : float;
  dailyProfit : float;
  activePositions : nat;
  pendingRewards : float;
  total_apy : float
}.

Definition add_earned (x : float) (s : session) : session :=
  {| start := start s; earned := (earned s + x)%float; last_mint := last_mint s |}.

(** The two assignments after a mint call that returned:
    [session["last_mint"] = now] and [session["earned"] = 0]. *)
Definition settled (now : float) (s : session) : session :=
  {| start := start s; earned := 0; last_mint := now |}.

(** The condition of line 131: [since_mint >= 5 and w3 and admin_account]. *)
Definition admits (E : env) (since_mint : float) : bool :=
  PrimFloat.leb 5 since_mint && w3 E && admin_account E.

Definition hourly_rate (earnings running : float) : float :=
  if PrimFloat.ltb 0 running then (earnings / running * 3600)%float else 0%float.

Definition reply (s : session) (hourly apy : float) : metrics :=
  {| totalProfit := earned s;
     hourlyRate := hourly;
     dailyProfit := (hourly * 24)%float;
     activePositions := length STRATEGIES;
     pendingRewards := (earned s * 0.1)%float;
     total_apy := (apy * 100)%float |}.

(** The [try] statement of lines 132-137, on the session as it is after the
    accrual. *)
Definition settlement (E : env) (run : chain_run) (wallet : string) (now : float)
    (s : session) : printing session :=
  try_except
    (_ <- mint_tokens E run wallet (earned s) ;;
     ret (settled now s))%printing
    (fun e => say (PrintMintError e) ;;; ret s)%printing.

(** [get_metrics(x_wallet_address)]: GET /api/engine/metrics.  [t_start] and
    [t_last_mint] are the clock readings taken when the session has to be
    created, [now] is the reading of line 122, [run] the web3 exchange of the
    mint call, should there be one. *)
Definition get_metrics (E : env) (x_wallet_address : option string)
    (t_start t_last_mint now : float) (run : chain_run) (W : world)
  : outcome metrics * world :=
  if negb (truthy x_wallet_address)
  then (Raises (HTTPException 400 "Wallet header required"), W)
  else
    let wallet := lower (default ""%string x_wallet_address) in
    let W1 :=
      match user_sessions W !! wallet with
      | Some _ => W
      | None => set_sessions (<[wallet := new_session t_start t_last_mint]> (user_sessions W)) W
      end in
    match user_sessions W1 !! wallet with
    | None => (Raises (KeyError wallet), W1)
    | Some s0 =>
        let running := (now - start s0)%float in
        let since_mint := (now - last_mint s0)%float in
        let principal := 100000%float in
        let '(earnings, apy) := calculate_earnings E principal running in
        let s1 := add_earned earnings s0 in
        let '(printed, r) :=
          if admits E since_mint then settlement E run wallet now s1
          else ret s1 in
        let W2 := print printed W1 in
        match r with
        | Raises e => (Raises e, set_sessions (<[wallet := s1]> (user_sessions W2)) W2)
        | Returns s2 =>
            let hourly := hourly_rate earnings running in
            (Returns (reply s2 hourly apy),
             set_sessions (<[wallet := s2]> (user_sessions W2)) W2)
        end
    end.

(** A JSON value of the body of a stop request, as far as [stop_engine] can
    tell them apart: a string has [.lower()], nothing else has. *)
Inductive json : Type :=
| JStr (s : string)
| JOther.

Record stop_reply : Type := { stop_success : bool }.

(** [stop_engine(req)]: POST /api/engine/stop.  [req] is the request body, a
    dictionary; [req.get("walletAddress", "")] falls back on the empty
    string. *)
Definition stop_engine (req : gmap string json) (W : world) : outcome stop_reply * world :=
  match default (JStr "") (req !! "walletAddress"%string) with
  | JOther => (Raises AttributeError, W)
  | JStr a =>
      let wallet := lower a in
      let W1 :=
        match user_sessions W !! wallet with
        | Some _ => set_sessions (delete wallet (user_sessions W)) W
        | None => W
        end in
      (Returns {| stop_success := true |}, W1)
  end.

(** ** Overlapping [get_metrics] calls

    FastAPI runs a handler declared with [def] on a worker thread, so several
    calls of [get_metrics] can be in progress at once, all on the one
    [user_sessions].  The model below cuts the handler into steps, each a
    run of consecutive statements; a thread switch can happen between two
    steps.  The real interpreter can switch at more places still, so every
    interleaving of the model is one of the program, and not the other way
    round.  In these interleavings lines 109 to 124 run without a switch,
    so no entry of [user_sessions] is replaced by another call in between,
    the dictionary that the local variable [session] refers to is the one
    stored under [wallet], and the steps reach it through that key.  The
    module [Fine] further down has a step for every access and a session
    object behind every key, and covers the interleavings that this one
    leaves out.  [print] is taken to write its line here. *)

Module Threads.

(** The local variables of one call. *)
Record frame : Type := {
  wallet : string;
  now : float;
  running : float;
  since_mint : float;
  earnings : float;
  apy_ : float
}.

(** Where a call stands. *)
Inductive thread : Type :=
| Called (x_wallet_address : option string)   (* before line 109 *)
| AtAccrue (f : frame)                        (* before line 126 *)
| AtGate (f : frame)                          (* before line 131 *)
| AtMint (f : frame)                          (* before line 133 *)
| InFlight (f : frame) (amount : float)       (* inside [mint_tokens] *)
| AtSettle (f : frame)                        (* before line 134 *)
| AtReply (f : frame)                         (* before line 139 *)
| Finished (r : outcome metrics).

(** What the environment supplies to a step: clock readings and the web3
    exchange.  A step uses the parts it needs. *)
Record input : Type := {
  t_start : float;
  t_last_mint : float;
  t_now : float;
  chain : chain_run
}.

Definition with_earnings (f : frame) (e a : float) : frame :=
  {| wallet := wallet f; now := now f; running := running f;
     since_mint := since_mint f; earnings := e; apy_ := a |}.

(** One step of one call. *)
Definition step (E : env) (i : input) (t : thread) (W : world) : thread * world :=
  match t with
  | Called x_wallet_address =>
      if negb (truthy x_wallet_address)
      then (Finished (Raises (HTTPException 400 "Wallet header required")), W)
      else
        let wallet := lower (default ""%string x_wallet_address) in
        let W1 :=
          match user_sessions W !! wallet with
          | Some _ => W
          | None =>
              set_sessions
                (<[wallet := new_session (t_start i) (t_last_mint i)]> (user_sessions W)) W
          end in
        match user_sessions W1 !! wallet with
        | None => (Finished (Raises (KeyError wallet)), W1)
        | Some s =>
            (AtAccrue {| wallet := wallet; now := t_now i;
                         running := (t_now i - start s)%float;
                         since_mint := (t_now i - last_mint s)%float;
                         earnings := 0; apy_ := 0 |}, W1)
        end
  | AtAccrue f =>
      let '(earnings, apy) := calculate_earnings E 100000 (running f) in
      (AtGate (with_earnings f earnings apy),
       set_sessions (alter (add_earned earnings) (wallet f) (user_sessions W)) W)
  | AtGate f =>
      if admits E (since_mint f) then (AtMint f, W) else (AtReply f, W)
  | AtMint f =>
      match user_sessions W !! wallet f with
      | None => (Finished (Raises (KeyError (wallet f))), W)
      | Some s => (InFlight f (earned s), W)
      end
  | InFlight f amount =>
      match mint_tokens E (chain i) (wallet f) amount with
      | (printed, Returns _) => (AtSettle f, print printed W)
      | (printed, Raises e) => (AtReply f, print (printed ++ [PrintMintError e]) W)
      end
  | AtSettle f =>
      (AtReply f,
       set_sessions (alter (settled (now f)) (wallet f) (user_sessions W)) W)
  | AtReply f =>
      match user_sessions W !! wallet f with
      | None => (Finished (Raises (KeyError (wallet f))), W)
      | Some s =>
          (Finished (Returns (reply s (hourly_rate (earnings f) (running f)) (apy_ f))), W)
      end
  | Finished r => (Finished r, W)
  end.

(** A number of calls in progress over the shared state. *)
Record system : Type := {
  calls : list thread;
  shared : world
}.

(** The scheduler lets call number [n] take one step. *)
Definition sys_step (E : env) (n : nat) (i : input) (S : system) : system :=
  match calls S !! n with
  | None => S
  | Some t =>
      let '(t', W') := step E i t (shared S) in
      {| calls := <[n := t']> (calls S); shared := W' |}
  end.

Definition run (E : env) (schedule : list (nat * input)) (S : system) : system :=
  fold_left (fun S' ni => sys_step E ni.1 ni.2 S') schedule S.

(** One call run from start to finish with nothing in between. *)
Definition alone (E : env) (i : input) (x_wallet_address : option string) (W : world)
  : thread * world :=
  Nat.iter 7 (fun tW => step E i tW.1 tW.2) (Called x_wallet_address, W).


End Threads.

(** ** The accrual formula *)

(** The formula in binary64, grouped as the specification writes it:
    [effectiveApy = boost * sum], the sum taken by the interpreter's [sum]
    over the table in its order. *)
Definition spec_effectiveApy (E : env) : float :=
  (AI_BOOST * py_sum E (map (fun s => apy s.2 * weight s.2) STRATEGIES))%float.

(** [amount = principal * perSecondRate * elapsedSeconds] with
    [perSecondRate = effectiveApy / secondsPerYear] and a year of 365 days of
    86400 seconds, in binary64. *)
Definition spec_amount (E : env) (principal elapsedSeconds : float) : float :=
  (principal * (spec_effectiveApy E / (365 * 86400)) * elapsedSeconds)%float.

(** ** The accrual formula over the rationals *)

(** The rational number that a finite binary64 value is. *)
Definition exact (x : float) : option Q :=
  match Prim2SF x with
  | S754_zero _ => Some 0%Q
  | S754_finite s m e =>
      let n := if s then Z.neg m else Z.pos m in
      Some (if 0 <=? e then inject_Z (n * 2 ^ e) else Qmake n (2 ^ Z.to_pos (- e)))
  | _ => None
  end.

(** [x] is finite and at most [tol] away from [q]. *)
Definition within (tol : Q) (x : float) (q : Q) : bool :=
  match exact x with
  | Some v => Qle_bool (Qabs (v - q)) tol
  | None => false
  end.

(** [x] is [q] rounded to binary64: they differ by at most half a unit in
    the last place of a normal number. *)
Definition rounds (x : float) (q : Q) : bool :=
  within (Qabs q / inject_Z (2 ^ 53)) x q.

(** The strategy table of lines 49-62 with its decimals read as the exact
    rationals they write: [(apy, weight)] per strategy. *)
Definition STRATEGIES_decimal : list (string * (Q * Q)) :=
  [ ("aave_lending"%string, (0.85, 0.15)%Q);
    ("compound"%string,     (0.78, 0.12)%Q);
    ("uniswap_v3"%string,   (2.45, 0.18)%Q);
    ("curve_stable"%string, (1.25, 0.10)%Q);
    ("yearn_vaults"%string, (1.98, 0.15)%Q);
    ("convex"%string,       (3.12, 0.10)%Q);
    ("balancer"%string,     (1.67, 0.08)%Q);
    ("sushiswap"%string,    (2.89, 0.05)%Q);
    ("mev_arb"%string,      (4.25, 0.03)%Q);
    ("flashloan"%string,    (5.12, 0.02)%Q);
    ("governance"%string,   (0.95, 0.01)%Q);
    ("staking"%string,      (1.42, 0.01)%Q) ].

(** The formula of the specification in exact arithmetic:
    [effectiveApy = boost * Σ(strategy.apy * strategy.weight)] with the boost
    2.5, and [perSecondRate = effectiveApy / (365 * 86400)]. *)
Definition exact_effectiveApy : Q :=
  (2.5 * fold_right Qplus 0 (map (fun s => s.2.1 * s.2.2) STRATEGIES_decimal))%Q.

Definition exact_perSecondRate : Q :=
  (exact_effectiveApy / (365 * 86400))%Q.

Definition exact_amount (principal elapsedSeconds : Q) : Q :=
  (principal * exact_perSecondRate * elapsedSeconds)%Q.

(** Entry by entry, the binary64 table is the decimal table rounded. *)
Definition same_table (fs : list (string * strategy)) (ds : list (string * (Q * Q))) : bool :=
  forallb (fun fd : (string * strategy) * (string * (Q * Q)) =>
             String.eqb fd.1.1 fd.2.1
             && rounds (apy fd.1.2) fd.2.2.1 && rounds (weight fd.1.2) fd.2.2.2)
          (zip fs ds)
  && (length fs =? length ds)%nat.

(** ** Sample configurations and states *)

Module Sample.

(** Minting enabled, on an interpreter with the plain [sum] loop. *)
Definition minting : env :=
  {| w3 := true; admin_account := true; compensated_sum := false |}.

(** Minting enabled, on an interpreter with the compensated [sum] loop. *)
Definition minting312 : env :=
  {| w3 := true; admin_account := true; compensated_sum := true |}.

(** No credentials: [w3] and [admin_account] are [None]. *)
Definition disabled : env :=
  {| w3 := false; admin_account := false; compensated_sum := false |}.

Definition fresh : world := {| user_sessions := ∅; stdout := [] |}.

Definition request (a : string) : EngineRequest :=
  {| walletAddress := a; miningContract := ""; yieldAggregator := ""; strategies := [] |}.

(** The state after [start_engine] for ["0xABC"] at time 0. *)
Definition started : world := (start_engine (request "0xABC") 0 0 fresh).2.

Definition timeout : chain_run := FailsAfterSend "0xfeed" (Web3Error "TimeExhausted").
Definition refused : chain_run := FailsBeforeSend (Web3Error "rejected").
Definition reverted : chain_run := Receipt "0xfeed" 0 17.
Definition confirmed : chain_run := Receipt "0xfeed" 1 17.

End Sample.

(** ** Case variants of an address *)

(** [x] and [y] are the same letter up to case: equal, or one is an ASCII
    capital and the other the small letter 32 positions after it. *)
Definition same_letter (x y : ascii) : bool :=
  let a := N_of_ascii x in
  let b := N_of_ascii y in
  ((a =? b) || ((65 <=? a) && (a <=? 90) && (b =? a + 32))
            || ((65 <=? b) && (b <=? 90) && (a =? b + 32)))%N.

(** Two strings of the same length whose characters agree up to case. *)
Fixpoint case_variant (a b : string) : bool :=
  match a, b with
  | EmptyString, EmptyString => true
  | String x a', String y b' => same_letter x y && case_variant a' b'
  | _, _ => false
  end.

(** ** Observations on the minting helper and on a call *)

(** What [mint_tokens] returns: the transaction hash when minting is enabled,
    the amount converts to a positive number of atomic units and the exchange
    reaches a receipt (whatever its status), and [None] otherwise. *)
Definition mint_result (E : env) (run : chain_run) (amount : float) : option string :=
  if w3 E && admin_account E then
    match Py.int (amount * 1e18)%float with
    | Returns token_amount =>
        if 0 <? token_amount
        then match run with Receipt tx_hash _ _ => Some tx_hash | _ => None end
        else None
    | Raises _ => None
    end
  else None.

(** A line other than the one the handler of [get_metrics] prints. *)
Definition not_mint_error (l : line) : Prop :=
  match l with PrintMintError _ => False | _ => True end.

(** The session [get_metrics] works on: the stored one, or a new one. *)
Definition session_of (wallet : string) (t_start t_last_mint : float) (W : world) : session :=
  default (new_session t_start t_last_mint) (user_sessions W !! wallet).

(** The accrual a call adds: over the whole time since ["start"]. *)
Definition accrual (E : env) (now : float) (s : session) : float :=
  (calculate_earnings E 100000 (now - start s)).1.

(** What a call prints: the lines of [mint_tokens] when the gate admits a
    settlement, and nothing otherwise. *)
Definition printed_by (E : env) (run : chain_run) (wallet : string) (now : float)
    (s0 : session) : list line :=
  if admits E (now - last_mint s0)
  then (mint_tokens E run wallet (earned (add_earned (accrual E now s0) s0))).1
  else [].

(** [totalProfit] of a reply, if there is one. *)
Definition total_of (r : outcome metrics) : option float :=
  match r with
  | Returns m => Some (totalProfit m)
  | Raises _ => None
  end.

(** ** A scenario with two overlapping calls *)

Module Overlap.
Import Threads.

(** Two calls for the same wallet, written in different case, over the
    state in which the wallet was started at time 0. *)
Definition two_calls : system :=
  {| calls := [Called (Some "0xABC"%string); Called (Some "0xabc"%string)];
     shared := Sample.started |}.

(** What call 0 is given: the clock reads 10, and its mint is confirmed in
    block 17. *)
Definition first : input :=
  {| t_start := 7; t_last_mint := 7; t_now := 10; chain := Receipt "0xfeed" 1 17 |}.

(** What call 1 is given: the clock reads 11, one second later, and its
    mint is confirmed in block 18. *)
Definition second : input :=
  {| t_start := 7; t_last_mint := 7; t_now := 11; chain := Receipt "0xbeef" 1 18 |}.

(** Call 0 runs up to the inside of its mint call, and then call 1 does
    the same. *)
Definition both_admitted : list (nat * input) :=
  [ (0, first); (0, first); (0, first); (0, first);
    (1, second); (1, second); (1, second); (1, second) ]%nat.




End Overlap.

(** ** The process as a sequence of requests *)

(** A request to one of the three handlers that touch [user_sessions],
    together with what the environment supplies while it is served. *)
Inductive request : Type :=
| PostStart (req : EngineRequest) (t_start t_last_mint : float)
| GetMetrics (x_wallet_address : option string) (t_start t_last_mint now : float)
    (run : chain_run)
| PostStop (req : gmap string json).

(** The state after a request is served. *)
Definition handle (E : env) (r : request) (W : world) : world :=
  match r with
  | PostStart req t_start t_last_mint => (start_engine req t_start t_last_mint W).2
  | GetMetrics x t_start t_last_mint now run =>
      (get_metrics E x t_start t_last_mint now run W).2
  | PostStop req => (stop_engine req W).2
  end.

(** Requests served one after the other. *)
Definition serve (E : env) (rs : list request) (W : world) : world :=
  fold_left (fun W' r => handle E r W') rs W.

(** Every key of [user_sessions] is in lower case. *)
Definition canonical_keys (W : world) : Prop :=
  forall w : string, is_Some (user_sessions W !! w) -> lower w = w.

(** Minting is enabled: line 131 can pass and [mint_tokens] goes past
    line 151. *)
Definition minting_enabled (E : env) : bool := w3 E && admin_account E.

(** [x / y] as Python evaluates it on floats: [ZeroDivisionError] (here
    [None]) when [y] is zero. *)
Definition checked_div (x y : float) : option float :=
  if (y =? 0)%float then None else Some (x / y)%float.

(** Line 139 with the division checked. *)
Definition hourly_rate_checked (earnings running : float) : option float :=
  if (0 <? running)%float
  then (fun q => q * 3600)%float <$> checked_div earnings running
  else Some 0%float.

(** The number of atomic units [mint_tokens] computes for an amount. *)
Definition token_amount_of (amount : float) : outcome Z :=
  Py.int (amount * 1e18)%float.

(** The wallet a call in progress works for; none once it has finished or
    when it is about to be refused. *)
Definition wallet_of (t : Threads.thread) : option string :=
  match t with
  | Threads.Called x => if truthy x then Some (lower (default ""%string x)) else None
  | Threads.AtAccrue f | Threads.AtGate f | Threads.AtMint f | Threads.InFlight f _
  | Threads.AtSettle f | Threads.AtReply f => Some (Threads.wallet f)
  | Threads.Finished _ => None
  end.

(** ** Addresses *)

(** The string holds ASCII characters only.  On such strings [lower] is
    exactly [str.lower]; the statements about case variants are made for
    them. *)
Fixpoint is_ascii (s : string) : bool :=
  match s with
  | EmptyString => true
  | String c s' => (N_of_ascii c <? 128)%N && is_ascii s'
  end.

Definition is_hex_digit (c : ascii) : bool :=
  let n := N_of_ascii c in
  ((48 <=? n) && (n <=? 57) || (65 <=? n) && (n <=? 70) || (97 <=? n) && (n <=? 102))%N.

Fixpoint all_hex (s : string) : bool :=
  match s with
  | EmptyString => true
  | String c s' => is_hex_digit c && all_hex s'
  end.

Definition remove_0x_prefix (s : string) : string :=
  match s with
  | String "0" (String "x" r) => r
  | String "0" (String "X" r) => r
  | _ => s
  end.

(** What [Web3.to_checksum_address] takes without raising its [ValueError]:
    40 hexadecimal digits, with or without the prefix [0x]. *)
Definition is_hex_address (s : string) : bool :=
  let d := remove_0x_prefix s in
  (String.length d =? 40)%nat && all_hex d.

(** ** The handlers with a [print] that can fail

    [print] writes to the standard output of the process and raises when
    the write fails.  Line 188, 189 and 191 print inside the [try] of
    [mint_tokens]; line 195 prints in its handler and line 137 in the
    handler of [get_metrics], where nothing catches.  In this module the
    outcome of every call of [print] is an input: a [console] says, for the
    n-th call of [print] made while a request is served, whether the line
    is written or which exception is raised.  The web3 exchange is
    restricted to the courses it can take for the wallet: for a wallet that
    is not an address [to_checksum_address] (line 170) raises before
    anything is sent.  The definitions of the first part of the file are
    these ones with a console that writes every line. *)

Module Io.

Definition console : Type := nat -> option exn.

(** The console that writes every line. *)
Definition quiet : console := fun _ => None.

(** A computation that prints: from the console and the number of calls of
    [print] made so far, the number made afterwards, the lines written
    and the outcome. *)
Definition io (A : Type) : Type := console -> nat -> nat * list line * outcome A.

Definition ret {A} (a : A) : io A := fun _ n => (n, [], Returns a).
Definition raise {A} (e : exn) : io A := fun _ n => (n, [], Raises e).
Definition lift {A} (o : outcome A) : io A := fun _ n => (n, [], o).

(** [print(l)]. *)
Definition say (l : line) : io unit :=
  fun c n =>
    match c n with
    | None => (S n, [l], Returns tt)
    | Some e => (S n, [], Raises e)
    end.

Definition bind {A B} (m : io A) (k : A -> io B) : io B :=
  fun c n =>
    match m c n with
    | (n1, ls, Returns a) => let '(n2, ls', r) := k a c n1 in (n2, ls ++ ls', r)
    | (n1, ls, Raises e) => (n1, ls, Raises e)
    end.

(** [try: body except Exception as e: handler]. *)
Definition try_except {A} (body : io A) (handler : exn -> io A) : io A :=
  fun c n =>
    match body c n with
    | (n1, ls, Returns a) => (n1, ls, Returns a)
    | (n1, ls, Raises e) => let '(n2, ls', r) := handler e c n1 in (n2, ls ++ ls', r)
    end.

Declare Scope io_scope.
Delimit Scope io_scope with io.
Notation "x <- c ;; k" := (bind c (fun x => k))
  (at level 100, c at next level, right associativity) : io_scope.
Notation "c ;;; k" := (bind c (fun _ => k))
  (at level 100, right associativity) : io_scope.

(** The course the web3 exchange takes for a wallet.  For a wallet that is
    not an address it ends before sending: with the exception of an earlier
    web3 call if one raises, and with the [ValueError] of
    [to_checksum_address] otherwise. *)
Definition course_for (wallet : string) (run : chain_run) : chain_run :=
  if is_hex_address wallet then run
  else match run with
       | FailsBeforeSend e => FailsBeforeSend e
       | _ => FailsBeforeSend ValueError
       end.

(** The web3 part of [mint_tokens], from the first [print] to the last. *)
Definition mint_exchange (wallet : string) (amount : float) (run : chain_run)
  : io (option string) :=
  (say (PrintMinting amount wallet) ;;;
   match course_for wallet run with
   | FailsBeforeSend e => raise e
   | FailsAfterSend tx_hash e => say (PrintTx tx_hash) ;;; raise e
   | Receipt tx_hash status blockNumber =>
       say (PrintTx tx_hash) ;;;
       (if status =? 1
        then say (PrintConfirmed blockNumber) ;;; say (PrintEtherscan tx_hash)
        else say PrintFailed) ;;;
       ret (Some tx_hash)
   end)%io.

(** [mint_tokens(wallet, amount)]. *)
Definition mint_tokens (E : env) (run : chain_run) (wallet : string) (amount : float)
  : io (option string) :=
  if negb (w3 E) || negb (admin_account E) then ret None
  else
    try_except
      (token_amount <- lift (Py.int (amount * 1e18)%float) ;;
       if token_amount <=? 0 then ret None
       else mint_exchange wallet amount run)%io
      (fun e => say (PrintError e) ;;; ret None)%io.

(** The [try] statement of lines 132-137. *)
Definition settlement (E : env) (run : chain_run) (wallet : string) (now : float)
    (s : session) : io session :=
  try_except
    (_ <- mint_tokens E run wallet (earned s) ;;
     ret (settled now s))%io
    (fun e => say (PrintMintError e) ;;; ret s)%io.

(** [get_metrics(x_wallet_address)], with the console [c] for its calls of
    [print]. *)
Definition get_metrics (E : env) (c : console) (x_wallet_address : option string)
    (t_start t_last_mint now : float) (run : chain_run) (W : world)
  : outcome metrics * world :=
  if negb (truthy x_wallet_address)
  then (Raises (HTTPException 400 "Wallet header required"), W)
  else
    let wallet := lower (default ""%string x_wallet_address) in
    let W1 :=
      match user_sessions W !! wallet with
      | Some _ => W
      | None => set_sessions (<[wallet := new_session t_start t_last_mint]> (user_sessions W)) W
      end in
    match user_sessions W1 !! wallet with
    | None => (Raises (KeyError wallet), W1)
    | Some s0 =>
        let running := (now - start s0)%float in
        let since_mint := (now - last_mint s0)%float in
        let principal := 100000%float in
        let '(earnings, apy) := calculate_earnings E principal running in
        let s1 := add_earned earnings s0 in
        let '(_, printed, r) :=
          if admits E since_mint then settlement E run wallet now s1 c 0%nat
          else ret s1 c 0%nat in
        let W2 := print printed W1 in
        match r with
        | Raises e => (Raises e, set_sessions (<[wallet := s1]> (user_sessions W2)) W2)
        | Returns s2 =>
            let hourly := hourly_rate earnings running in
            (Returns (reply s2 hourly apy),
             set_sessions (<[wallet := s2]> (user_sessions W2)) W2)
        end
    end.

End Io.

(** Sample consoles and a sample address. *)
Module SampleIo.

(** The standard output is closed: every [print] raises a [ValueError]. *)
Definition closed : Io.console := fun _ => Some ValueError.

(** Every line is written but the one of call number [k], which raises. *)
Definition fails_at (k : nat) (e : exn) : Io.console :=
  fun n => if (n =? k)%nat then Some e else None.

(** An address, as a wallet sends it (mixed case) and as the key it gets. *)
Definition holder : string := "0x00000000219ab540356cBB839Cbe05303d7705Fa".
Definition holder_key : string := "0x00000000219ab540356cbb839cbe05303d7705fa".

(** The state after [start_engine] for [holder] at time 0. *)
Definition started : world := (start_engine (Sample.request holder) 0 0 Sample.fresh).2.

End SampleIo.

(** ** Requests served with a [print] that can fail *)

(** The wallet strings of a request hold ASCII characters only. *)
Definition ascii_request (r : request) : Prop :=
  match r with
  | PostStart req _ _ => is_ascii (walletAddress req) = true
  | GetMetrics x _ _ _ _ => is_ascii (default ""%string x) = true
  | PostStop req =>
      match req !! "walletAddress"%string with
      | Some (JStr a) => is_ascii a = true
      | _ => True
      end
  end.

(** The state after a request is served with the console [c]. *)
Definition handle_on (E : env) (rc : request * Io.console) (W : world) : world :=
  match rc.1 with
  | PostStart req t_start t_last_mint => (start_engine req t_start t_last_mint W).2
  | GetMetrics x t_start t_last_mint now run =>
      (Io.get_metrics E rc.2 x t_start t_last_mint now run W).2
  | PostStop req => (stop_engine req W).2
  end.

(** Requests served one after the other, each with its console. *)
Definition serve_on (E : env) (rs : list (request * Io.console)) (W : world) : world :=
  fold_left (fun W' rc => handle_on E rc W') rs W.

(** ** Overlapping calls, one access at a time

    The interpreter can switch threads between any two accesses to a shared
    object.  The model below gives every access of [get_metrics] to
    [user_sessions], to a session dictionary and to the clock a step of its
    own.  Session dictionaries are objects with an identity: [user_sessions]
    maps a key to an object, line 121 binds the local variable [session] to
    the object found under the key at that moment, and the lines after it
    read and write that object, whatever [user_sessions] holds by then.  Two
    calls that both find a wallet missing each store a dictionary of their
    own, and the later store replaces the earlier entry.

    The call of [mint_tokens] is in flight from the step that reads its
    argument to the step that ends it; the lines it prints are appended
    then. *)

Module Fine.

Record store : Type := {
  sessions : gmap string nat;   (* [user_sessions]: the object under each key *)
  objects : list session;       (* the session dictionaries created so far *)
  out : list line
}.

Definition set_earned (x : float) (s : session) : session :=
  {| start := start s; earned := x; last_mint := last_mint s |}.

Definition set_last_mint (x : float) (s : session) : session :=
  {| start := start s; earned := earned s; last_mint := x |}.

(** An assignment to an item of the object [l]. *)
Definition write (g : session -> session) (l : nat) (σ : store) : store :=
  {| sessions := sessions σ; objects := alter g l (objects σ); out := out σ |}.

Definition printed (ls : list line) (σ : store) : store :=
  {| sessions := sessions σ; objects := objects σ; out := out σ ++ ls |}.

(** [user_sessions[w] = s] for a dictionary [s] just built. *)
Definition store_new (w : string) (s : session) (σ : store) : store :=
  {| sessions := <[w := length (objects σ)]> (sessions σ);
     objects := objects σ ++ [s];
     out := out σ |}.

(** The local variables of a call from line 124 on; [session_] is the
    object that the variable [session] refers to. *)
Record frame : Type := {
  wallet : string;
  session_ : nat;
  now : float;
  running : float;
  since_mint : float;
  earnings : float;
  apy_ : float
}.

(** Where a call stands: the access it makes next. *)
Inductive thread : Type :=
| Called (x_wallet_address : option string)                  (* line 109 *)
| AtCheck (w : string)                                       (* line 114 *)
| AtClockStart (w : string)                                  (* line 116 *)
| AtClockLastMint (w : string) (t_start : float)             (* line 118 *)
| AtStore (w : string) (s : session)                         (* line 115, the store *)
| AtBind (w : string)                                        (* line 121 *)
| AtClockNow (w : string) (l : nat)                          (* line 122 *)
| AtReadStart (w : string) (l : nat) (now : float)           (* line 123 *)
| AtReadLastMint (w : string) (l : nat) (now running : float) (* line 124 *)
| AtReadEarned (f : frame)                                   (* line 128, the read *)
| AtWriteEarned (f : frame) (x : float)                      (* line 128, the store *)
| AtMintArg (f : frame)                                      (* line 133, the argument *)
| InMint (f : frame) (amount : float)                        (* line 133, the call *)
| AtSetLastMint (f : frame)                                  (* line 134 *)
| AtZero (f : frame)                                         (* line 135 *)
| AtMintError (f : frame) (e : exn) (n : nat)                (* line 137 *)
| AtReplyTotal (f : frame)                                   (* line 142 *)
| AtReplyPending (f : frame) (totalProfit : float)           (* line 146 *)
| Finished (r : outcome metrics).

(** What the environment supplies to a step: the reading of the clock, the
    course of the web3 exchange and the console.  A step uses the parts it
    needs. *)
Record input : Type := {
  clock : float;
  chain : chain_run;
  console : Io.console
}.

(** One step of one call.  A step that reads an object which does not
    exist leaves everything as it is; objects are never freed, so there is
    no such step in a run from a sound state. *)
Definition step (E : env) (i : input) (t : thread) (σ : store) : thread * store :=
  match t with
  | Called x_wallet_address =>
      if negb (truthy x_wallet_address)
      then (Finished (Raises (HTTPException 400 "Wallet header required")), σ)
      else (AtCheck (lower (default ""%string x_wallet_address)), σ)
  | AtCheck w =>
      match sessions σ !! w with
      | Some _ => (AtBind w, σ)
      | None => (AtClockStart w, σ)
      end
  | AtClockStart w => (AtClockLastMint w (clock i), σ)
  | AtClockLastMint w t_start => (AtStore w (new_session t_start (clock i)), σ)
  | AtStore w s => (AtBind w, store_new w s σ)
  | AtBind w =>
      match sessions σ !! w with
      | None => (Finished (Raises (KeyError w)), σ)
      | Some l => (AtClockNow w l, σ)
      end
  | AtClockNow w l => (AtReadStart w l (clock i), σ)
  | AtReadStart w l now =>
      match objects σ !! l with
      | None => (t, σ)
      | Some s => (AtReadLastMint w l now (now - start s)%float, σ)
      end
  | AtReadLastMint w l now running =>
      match objects σ !! l with
      | None => (t, σ)
      | Some s =>
          let '(earnings, apy) := calculate_earnings E 100000 running in
          (AtReadEarned {| wallet := w; session_ := l; now := now; running := running;
                           since_mint := (now - last_mint s)%float;
                           earnings := earnings; apy_ := apy |}, σ)
      end
  | AtReadEarned f =>
      match objects σ !! session_ f with
      | None => (t, σ)
      | Some s => (AtWriteEarned f (earned s + earnings f)%float, σ)
      end
  | AtWriteEarned f x =>
      (if admits E (since_mint f) then AtMintArg f else AtReplyTotal f,
       write (set_earned x) (session_ f) σ)
  | AtMintArg f =>
      match objects σ !! session_ f with
      | None => (t, σ)
      | Some s => (InMint f (earned s), σ)
      end
  | InMint f amount =>
      match Io.mint_tokens E (chain i) (wallet f) amount (console i) 0%nat with
      | (_, ls, Returns _) => (AtSetLastMint f, printed ls σ)
      | (n, ls, Raises e) => (AtMintError f e n, printed ls σ)
      end
  | AtSetLastMint f => (AtZero f, write (set_last_mint (now f)) (session_ f) σ)
  | AtZero f => (AtReplyTotal f, write (set_earned 0) (session_ f) σ)
  | AtMintError f e n =>
      match console i n with
      | None => (AtReplyTotal f, printed [PrintMintError e] σ)
      | Some e' => (Finished (Raises e'), σ)
      end
  | AtReplyTotal f =>
      match objects σ !! session_ f with
      | None => (t, σ)
      | Some s => (AtReplyPending f (earned s), σ)
      end
  | AtReplyPending f total =>
      match objects σ !! session_ f with
      | None => (t, σ)
      | Some s =>
          let hourly := hourly_rate (earnings f) (running f) in
          (Finished (Returns {| totalProfit := total;
                                hourlyRate := hourly;
                                dailyProfit := (hourly * 24)%float;
                                activePositions := length STRATEGIES;
                                pendingRewards := (earned s * 0.1)%float;
                                total_apy := (apy_ f * 100)%float |}), σ)
      end
  | Finished r => (t, σ)
  end.

(** A number of calls in progress over the shared store. *)
Record system : Type := {
  calls : list thread;
  shared : store
}.

(** The scheduler lets call number [n] make its next access. *)
Definition sys_step (E : env) (n : nat) (i : input) (S : system) : system :=
  match calls S !! n with
  | None => S
  | Some t =>
      let '(t', σ') := step E i t (shared S) in
      {| calls := <[n := t']> (calls S); shared := σ' |}
  end.

Definition run (E : env) (schedule : list (nat * input)) (S : system) : system :=
  fold_left (fun S' ni => sys_step E ni.1 ni.2 S') schedule S.

(** What one call is given when nothing else runs: the three readings of
    the clock, each at the line that takes it. *)
Definition input_at (t_start t_last_mint t_now : float) (run : chain_run)
    (c : Io.console) (t : thread) : input :=
  {| clock := match t with
              | AtClockStart _ => t_start
              | AtClockLastMint _ _ => t_last_mint
              | _ => t_now
              end;
     chain := run; console := c |}.

(** The next access of a call that runs with nothing in between. *)
Definition alone_step (E : env) (c : Io.console) (t_start t_last_mint t_now : float)
    (run : chain_run) (tσ : thread * store) : thread * store :=
  step E (input_at t_start t_last_mint t_now run c tσ.1) tσ.1 tσ.2.

(** One call run from start to finish with nothing in between: no path
    through the handler has more than 17 accesses. *)
Definition alone (E : env) (c : Io.console) (x_wallet_address : option string)
    (t_start t_last_mint t_now : float) (run : chain_run) (σ : store) : thread * store :=
  Nat.iter 17 (alone_step E c t_start t_last_mint t_now run) (Called x_wallet_address, σ).

(** [user_sessions] as a dictionary of dictionaries. *)
Definition world_of (σ : store) : world :=
  {| user_sessions := omap (fun l => objects σ !! l) (sessions σ);
     stdout := out σ |}.

(** Every key holds an object, and no two keys hold the same one. *)
Definition well_formed (σ : store) : Prop :=
  (forall w l, sessions σ !! w = Some l -> (l < length (objects σ))%nat)
  /\ (forall w1 w2 l, sessions σ !! w1 = Some l -> sessions σ !! w2 = Some l -> w1 = w2).

(** The object a call has in hand, once it has one. *)
Definition object_of (t : thread) : option nat :=
  match t with
  | AtClockNow _ l | AtReadStart _ l _ | AtReadLastMint _ l _ _ => Some l
  | AtReadEarned f | AtWriteEarned f _ | AtMintArg f | InMint f _ | AtSetLastMint f
  | AtZero f | AtMintError f _ _ | AtReplyTotal f | AtReplyPending f _ => Some (session_ f)
  | _ => None
  end.

(** What a call relies on: at line 121 its key is in [user_sessions], and
    from then on its [session] is an object. *)
Definition relies (σ : store) (t : thread) : Prop :=
  match t with
  | AtBind w => is_Some (sessions σ !! w)
  | _ => match object_of t with
         | Some l => (l < length (objects σ))%nat
         | None => True
         end
  end.

(** The step of a call is a step of the handler: not the [KeyError] of
    line 121, and not a read of an object that does not exist. *)
Definition proceeds (E : env) (i : input) (t : thread) (σ : store) : Prop :=
  match t with
  | AtBind w => exists l, step E i t σ = (AtClockNow w l, σ)
  | Finished _ => True
  | _ => (step E i t σ).1 <> t
  end.

(** Every key of [user_sessions] holds an object. *)
Definition live (σ : store) : Prop :=
  forall w l, sessions σ !! w = Some l -> (l < length (objects σ))%nat.

Definition sound (S : system) : Prop :=
  live (shared S) /\ Forall (relies (shared S)) (calls S).

(** The local variables of a call that bound the session [s0], the object
    [l], at line 121 and read the clock at [now]. *)
Definition frame_of (E : env) (w : string) (l : nat) (now : float) (s0 : session) : frame :=
  {| wallet := w; session_ := l; now := now;
     running := (now - start s0)%float;
     since_mint := (now - last_mint s0)%float;
     earnings := accrual E now s0;
     apy_ := (calculate_earnings E 100000 (now - start s0)).2 |}.

End Fine.

(** Two calls for the sample address over the state in which it was
    started at time 0, both past the throttle. *)
Module Flight.
Import Fine.

Definition started : store :=
  {| sessions := {[ SampleIo.holder_key := 0%nat ]};
     objects := [new_session 0 0];
     out := [] |}.

Definition two_calls : system :=
  {| calls := [Called (Some SampleIo.holder); Called (Some SampleIo.holder_key)];
     shared := started |}.

(** Call 0 reads the clock at 10 and its mint is confirmed in block 17;
    call 1 reads the clock at 11. *)
Definition first : input :=
  {| clock := 10; chain := Receipt "0xfeed" 1 17; console := Io.quiet |}.

Definition second : input :=
  {| clock := 11; chain := Receipt "0xbeef" 1 18; console := Io.quiet |}.

(** Call 0 runs up to its mint call, which is then in flight; meanwhile
    call 1 runs up to its own mint call, adding its accrual on the way. *)
Definition in_flight : list (nat * input) :=
  repeat (0%nat, first) 9 ++ repeat (1%nat, second) 9.

(** The mint call of call 0 returns with its receipt, and call 0 goes on
    to line 134. *)
Definition confirmed : list (nat * input) := [(0%nat, first); (0%nat, first)].

(** Call 0 executes line 135. *)
Definition zeroed : list (nat * input) := [(0%nat, first)].

(** Two calls for a wallet that has no session: each finds it missing
    before the other stores its dictionary. *)
Definition two_first_calls : system :=
  {| calls := [Called (Some SampleIo.holder); Called (Some SampleIo.holder_key)];
     shared := {| sessions := ∅; objects := []; out := [] |} |}.

(** Both calls pass lines 109 and 114; call 0 stores its dictionary and
    binds it at line 121; then call 1 stores its own. *)
Definition both_create : list (nat * input) :=
  [ (0, first); (0, first); (1, second); (1, second);
    (0, first); (0, first); (0, first); (0, first);
    (1, second); (1, second); (1, second); (1, second) ]%nat.

End Flight.

(** ** Facts about binary64 arithmetic *)

Module FloatFacts.

Lemma SFopp_round s m e l :
  SFopp (binary_round_aux prec emax s m e l)
  = binary_round_aux prec emax (negb s) m e l.
Proof.
  unfold binary_round_aux.
  destruct (shr_fexp prec emax m e l) as [mrs e'].
  destruct (shr_fexp prec emax _ e' loc_Exact) as [mrs' e''].
  destruct (shr_m mrs'); [reflexivity| |reflexivity].
  destruct (Z.leb e'' _); reflexivity.
Qed.

Lemma SFmul_opp_r x y :
  SFmul prec emax x (SFopp y) = SFopp (SFmul prec emax x y).
Proof.
  destruct x as [sx|sx| |sx mx ex], y as [sy|sy| |sy my ey]; simpl;
    rewrite ?SFopp_round; try destruct sx; try destruct sy; reflexivity.
Qed.

(** Negating a factor negates the product, exactly. *)
Lemma mul_opp_r (x y : float) : (x * - y)%float = (- (x * y))%float.
Proof.
  apply Prim2SF_inj.
  rewrite opp_spec, !mul_spec, opp_spec. apply SFmul_opp_r.
Qed.

Lemma ltb_opp_0 (x : float) : (- x <? 0)%float = (0 <? x)%float.
Proof.
  rewrite !ltb_spec, opp_spec.
  change (Prim2SF 0) with (S754_zero false).
  destruct (Prim2SF x) as [s|s| |s m e]; try destruct s; reflexivity.
Qed.

Lemma SFcompare_swap x y :
  SFcompare y x = option_map CompOpp (SFcompare x y).
Proof.
  destruct x as [sx|sx| |sx mx ex], y as [sy|sy| |sy my ey]; simpl;
    try destruct sx; try destruct sy; simpl; try reflexivity.
  - rewrite (Z.compare_antisym ex ey). destruct (ex ?= ey)%Z; simpl; try reflexivity.
    rewrite Pos.compare_cont_antisym. simpl. rewrite CompOpp_involutive. reflexivity.
  - rewrite (Z.compare_antisym ex ey). destruct (ex ?= ey)%Z; simpl; try reflexivity.
    rewrite Pos.compare_cont_antisym. reflexivity.
Qed.

(** [x < y] excludes [y <= x]. *)
Lemma ltb_not_leb (x y : float) : (x <? y)%float = true -> (y <=? x)%float = false.
Proof.
  rewrite ltb_spec, leb_spec. unfold SFltb, SFleb.
  rewrite (SFcompare_swap (Prim2SF x) (Prim2SF y)).
  destruct (SFcompare (Prim2SF x) (Prim2SF y)) as [[]|]; simpl; congruence.
Qed.

End FloatFacts.

(** ** The Python primitives on sample values *)

(** [10**18] is a binary64 value, and [int] gives it back. *)
Example int_of_1e18 : Py.int 1e18 = Returns (10 ^ 18).
Proof. vm_compute. reflexivity. Qed.

(** [int] truncates towards zero and raises on an infinity and on a NaN. *)
Example int_truncates :
  Py.int 0.5 = Returns 0 /\ Py.int (-2.7) = Returns (-2)
  /\ Py.int (1e300 * 1e300) = Raises OverflowError
  /\ Py.int (0 / 0) = Raises ValueError.
Proof. repeat split; vm_compute; reflexivity. Qed.

(** Half an atomic unit is not minted: [int(amount * 10**18)] is 0. *)
Example int_of_half_a_unit : Py.int (0.5e-18 * 1e18) = Returns 0.
Proof. vm_compute. reflexivity. Qed.

Example lower_0xABC : lower "0xAbC9" = "0xabc9"%string.
Proof. reflexivity. Qed.

(** ** The accrual calculation *)

Lemma total_apy_boost_first E :
  (py_sum E (map (fun s => apy s.2 * weight s.2) STRATEGIES) * AI_BOOST)%float
  = spec_effectiveApy E.
Proof. destruct E as [? ? []]; vm_compute; reflexivity. Qed.

(** The two [sum] loops differ on the table in the last bit, and so do the
    effective APYs they give. *)
Example effective_apy_values :
  spec_effectiveApy Sample.minting = 4.8195000000000006%float /\
  spec_effectiveApy Sample.minting312 = 4.8194999999999997%float.
Proof. split; vm_compute; reflexivity. Qed.

(** The scenario of the specification: a principal of 100000 over an hour. *)
Example one_hour_on_100000 :
  calculate_earnings Sample.minting 100000 3600
  = (55.017123287671239%float, 4.8195000000000006%float).
Proof. vm_compute. reflexivity. Qed.

(** [calculate_earnings] in binary64, grouped as the specification writes
    the formula. *)
Lemma calculate_earnings_in_binary64 E principal elapsedSeconds :
  calculate_earnings E principal elapsedSeconds
  = (spec_amount E principal elapsedSeconds, spec_effectiveApy E).
Proof.
  unfold calculate_earnings, spec_amount.
  rewrite total_apy_boost_first.
  replace (365 * 24 * 3600)%float with (365 * 86400)%float by (vm_compute; reflexivity).
  reflexivity.
Qed.

(** The table of the embedding is the table of lines 49-62, the exact
    effective APY of the formula is 4.8195, that is 481.95 %, and a
    principal of 100000 earns 16065/292, about 55.0171, in an hour. *)
Example exact_values :
  same_table STRATEGIES STRATEGIES_decimal = true
  /\ rounds AI_BOOST 2.5 = true
  /\ Qeq_bool exact_effectiveApy 4.8195 = true
  /\ Qeq_bool (exact_amount 100000 3600) (16065 # 292) = true.
Proof. repeat split; vm_compute; reflexivity. Qed.

(** Claim C4.  The accrual calculation depends on the static configuration
    alone for its effective APY and its per-second rate: there are two
    binary64 values, the same for every call, such that for every principal
    and every elapsed time (the non-negative ones in particular)
    [calculate_earnings] returns
    [amount = principal * perSecondRate * elapsedSeconds], the products
    taken in binary64 from left to right, together with [effectiveApy].
    These two values are those of the formula: [effectiveApy] is
    [boost * Σ(apy * weight)] over the fixed table with the boost 2.5,
    which is 4.8195, to within 10^-15, and [perSecondRate] is
    [effectiveApy / (365 * 86400)] to within 10^-22 (of about 1.5 * 10^-7),
    whichever [sum] loop the interpreter has.  On the principal 100000 over
    3600 seconds the amount is that of the formula to within 10^-13. *)
Theorem calculate_earnings_matches_the_formula E :
  exists effectiveApy perSecondRate : float,
    within (1 # 10 ^ 15) effectiveApy exact_effectiveApy = true
    /\ within (1 # 10 ^ 22) perSecondRate exact_perSecondRate = true
    /\ (forall principal elapsedSeconds : float,
          calculate_earnings E principal elapsedSeconds
          = ((principal * perSecondRate * elapsedSeconds)%float, effectiveApy))
    /\ within (1 # 10 ^ 13) (calculate_earnings E 100000 3600).1
         (exact_amount 100000 3600) = true.
Proof.
  exists (spec_effectiveApy E), (spec_effectiveApy E / (365 * 86400))%float.
  split; [destruct E as [? ? []]; vm_compute; reflexivity|].
  split; [destruct E as [? ? []]; vm_compute; reflexivity|].
  split; [intros; apply calculate_earnings_in_binary64|].
  destruct E as [? ? []]; vm_compute; reflexivity.
Qed.

(** Claim C5, as stated, fails: a principal of 100000 over -1 second accrues
    about -0.0153, which is negative and not zero, with either [sum] loop. *)
Lemma negative_elapsed_accrues_negative :
  (0 <=? 100000)%float = true /\ (-1 <? 0)%float = true /\
  (calculate_earnings Sample.minting 100000 (-1)).1 = (-0.015282534246575344)%float /\
  (calculate_earnings Sample.minting312 100000 (-1)).1 = (-0.015282534246575342)%float /\
  ((calculate_earnings Sample.minting 100000 (-1)).1 <? 0)%float = true /\
  ((calculate_earnings Sample.minting312 100000 (-1)).1 <? 0)%float = true /\
  ((calculate_earnings Sample.minting 100000 (-1)).1 =? 0)%float = false /\
  ((calculate_earnings Sample.minting312 100000 (-1)).1 =? 0)%float = false.
Proof. repeat split; vm_compute; reflexivity. Qed.

(** Claim C5, amended.  There is no clamp: over a negative elapsed time [-t]
    the calculation returns exactly the negation of what it returns over [t],
    so the accrual is negative whenever the one over [t] is positive; the
    effective APY is the same. *)
Theorem negative_elapsed_negates_accrual E principal t :
  (calculate_earnings E principal (- t)).1 = (- (calculate_earnings E principal t).1)%float /\
  (calculate_earnings E principal (- t)).2 = (calculate_earnings E principal t).2 /\
  ((0 <? (calculate_earnings E principal t).1)%float = true ->
   ((calculate_earnings E principal (- t)).1 <? 0)%float = true).
Proof.
  assert (Hneg : (calculate_earnings E principal (- t)).1
                 = (- (calculate_earnings E principal t).1)%float)
    by (unfold calculate_earnings; simpl; apply FloatFacts.mul_opp_r).
  split; [exact Hneg|]. split; [reflexivity|].
  intros Hpos. rewrite Hneg, FloatFacts.ltb_opp_0. exact Hpos.
Qed.

Lemma negative_elapsed_negates_accrual_witness :
  (0 <? (calculate_earnings Sample.minting 100000 1).1)%float = true /\
  ((calculate_earnings Sample.minting 100000 (- 1)).1 <? 0)%float = true.
Proof.
  assert (H : (0 <? (calculate_earnings Sample.minting 100000 1).1)%float = true)
    by (vm_compute; reflexivity).
  split; [exact H|].
  exact (proj2 (proj2 (negative_elapsed_negates_accrual Sample.minting 100000 1)) H).
Defined.

(** ** Case variants have one canonical form *)

Example case_variant_0xABC : case_variant "0xABC" "0xabc" = true.
Proof. reflexivity. Qed.

Example case_variant_mixed : case_variant "0xAbC" "0xaBc" = true.
Proof. reflexivity. Qed.

Example case_variant_other : case_variant "0xABC" "0xabd" = false.
Proof. reflexivity. Qed.

Lemma lower_ascii_capital (x : ascii) :
  (65 <=? N_of_ascii x)%N = true -> (N_of_ascii x <=? 90)%N = true ->
  lower_ascii x = ascii_of_N (N_of_ascii x + 32)
  /\ lower_ascii (ascii_of_N (N_of_ascii x + 32)) = ascii_of_N (N_of_ascii x + 32).
Proof.
  intros Hlo Hhi. unfold lower_ascii at 1. rewrite Hlo, Hhi. simpl. split; [reflexivity|].
  unfold lower_ascii. rewrite N_ascii_embedding.
  - apply N.leb_le in Hlo, Hhi.
    replace ((N_of_ascii x + 32 <=? 90)%N) with false by (symmetry; apply N.leb_gt; lia).
    rewrite andb_false_r. reflexivity.
  - apply N.leb_le in Hhi. lia.
Qed.

Lemma same_letter_lower (x y : ascii) :
  same_letter x y = true -> lower_ascii x = lower_ascii y.
Proof.
  unfold same_letter. intros H.
  apply orb_true_iff in H as [H|H]; [apply orb_true_iff in H as [H|H]|].
  - apply N.eqb_eq in H. f_equal.
    rewrite <- (ascii_N_embedding x), <- (ascii_N_embedding y). congruence.
  - apply andb_true_iff in H as [H Hy]. apply andb_true_iff in H as [Hlo Hhi].
    apply N.eqb_eq in Hy.
    destruct (lower_ascii_capital x Hlo Hhi) as [-> Hfix].
    rewrite <- (ascii_N_embedding y), Hy. symmetry. exact Hfix.
  - apply andb_true_iff in H as [H Hx]. apply andb_true_iff in H as [Hlo Hhi].
    apply N.eqb_eq in Hx.
    destruct (lower_ascii_capital y Hlo Hhi) as [-> Hfix].
    rewrite <- (ascii_N_embedding x), Hx. exact Hfix.
Qed.

(** Case variants have the same canonical form. *)
Lemma case_variant_lower (a b : string) :
  case_variant a b = true -> lower a = lower b.
Proof.
  revert b. induction a as [|x a IH]; intros [|y b]; simpl; try discriminate; [reflexivity|].
  intros H. apply andb_true_iff in H as [Hxy Hab].
  rewrite (same_letter_lower _ _ Hxy), (IH _ Hab). reflexivity.
Qed.

(** A case variant of a non-empty string is non-empty. *)
Lemma case_variant_truthy (a b : string) :
  case_variant a b = true -> truthy (Some a) = truthy (Some b).
Proof. destruct a, b; simpl; intros; congruence. Qed.

(** ** The minting helper when every line is written *)

Lemma mint_tokens_returns E run wallet amount :
  exists printed,
    mint_tokens E run wallet amount = (printed, Returns (mint_result E run amount))
    /\ Forall not_mint_error printed.
Proof.
  unfold mint_tokens, mint_result, mint_exchange, try_except, bind, say, ret, raise, lift.
  destruct (w3 E), (admin_account E); simpl;
    try (eexists; split; [reflexivity|constructor]).
  destruct (Py.int _) as [n|e]; simpl.
  - rewrite Z.ltb_antisym. destruct (n <=? 0); simpl.
    + eexists; split; [reflexivity|constructor].
    + destruct run as [e|h e|h st b]; simpl;
        try (eexists; split; [reflexivity|repeat constructor]).
      destruct (st =? 1); simpl; eexists; (split; [reflexivity|repeat constructor]).
  - eexists; split; [reflexivity|repeat constructor].
Qed.

(** ** [get_metrics] on a supplied wallet *)

Lemma printed_by_not_mint_error E run wallet now s0 :
  Forall not_mint_error (printed_by E run wallet now s0).
Proof.
  unfold printed_by. destruct (admits E _); [|constructor].
  destruct (mint_tokens_returns E run wallet
              (earned (add_earned (accrual E now s0) s0))) as (printed & -> & Hp).
  exact Hp.
Qed.

(** The [try] statement around the mint call always takes its [try] branch:
    the session comes out settled, and the handler prints nothing. *)
Lemma settlement_prints E run wallet now s :
  settlement E run wallet now s
  = ((mint_tokens E run wallet (earned s)).1, Returns (settled now s)).
Proof.
  unfold settlement.
  destruct (mint_tokens_returns E run wallet (earned s)) as (printed & -> & _).
  simpl. by rewrite app_nil_r.
Qed.

#[local] Opaque calculate_earnings settlement admits hourly_rate mint_tokens.

(** [get_metrics] with a wallet header, in closed form. *)
Lemma get_metrics_exact E h t_start t_last_mint now run W :
  truthy (Some h) = true ->
  let wallet := lower h in
  let s0 := session_of wallet t_start t_last_mint W in
  let s1 := add_earned (accrual E now s0) s0 in
  let s2 := if admits E (now - last_mint s0) then settled now s1 else s1 in
  get_metrics E (Some h) t_start t_last_mint now run W
  = (Returns (reply s2 (hourly_rate (accrual E now s0) (now - start s0))
                       (calculate_earnings E 100000 (now - start s0)).2),
     {| user_sessions := <[wallet := s2]> (user_sessions W);
        stdout := stdout W ++ printed_by E run wallet now s0 |}).
Proof.
  intros Hh wallet s0 s1 s2. unfold get_metrics. rewrite Hh. simpl.
  fold wallet.
  assert (Hs0 : exists W1,
    match user_sessions W !! wallet with
    | Some _ => W
    | None => set_sessions (<[wallet := new_session t_start t_last_mint]> (user_sessions W)) W
    end = W1 /\ user_sessions W1 !! wallet = Some s0 /\ stdout W1 = stdout W
    /\ forall s, <[wallet := s]> (user_sessions W1) = <[wallet := s]> (user_sessions W)).
  { subst s0. unfold session_of. destruct (user_sessions W !! wallet) as [s|] eqn:Hl; simpl.
    - exists W. auto.
    - eexists. split; [reflexivity|]. simpl. rewrite lookup_insert_eq.
      repeat split; try reflexivity. intros s. apply insert_insert_eq. }
  destruct Hs0 as (W1 & -> & Hl & Hout & Hins). rewrite Hl.
  subst s2 s1. unfold printed_by, accrual.
  destruct (calculate_earnings E 100000 (now - start s0)) as [earnings apy].
  simpl.
  destruct (admits E (now - last_mint s0)).
  - rewrite settlement_prints.
    unfold set_sessions, print; simpl. rewrite Hins, Hout. reflexivity.
  - unfold set_sessions, print, ret; simpl. rewrite Hins, Hout. reflexivity.
Qed.

Lemma get_metrics_supplied E h t_start t_last_mint now run W :
  truthy (Some h) = true ->
  let wallet := lower h in
  let s0 := session_of wallet t_start t_last_mint W in
  let s1 := add_earned (accrual E now s0) s0 in
  exists printed,
    Forall not_mint_error printed /\
    (admits E (now - last_mint s0) = false -> printed = []) /\
    get_metrics E (Some h) t_start t_last_mint now run W
    = let s2 := if admits E (now - last_mint s0) then settled now s1 else s1 in
      (Returns (reply s2 (hourly_rate (accrual E now s0) (now - start s0))
                         (calculate_earnings E 100000 (now - start s0)).2),
       {| user_sessions := <[wallet := s2]> (user_sessions W);
          stdout := stdout W ++ printed |}).
Proof.
  intros Hh wallet s0 s1.
  exists (printed_by E run wallet now s0).
  split; [apply printed_by_not_mint_error|].
  split; [unfold printed_by; by intros ->|].
  by apply get_metrics_exact.
Qed.

#[local] Transparent calculate_earnings settlement admits hourly_rate mint_tokens.

(** ** A request without a wallet *)

(** Claim C7.  Without a wallet header ([None]; the empty string is treated
    alike) [get_metrics] raises the HTTP error 400 "Wallet header required"
    and the state, sessions and output, is the one it was called in. *)
Theorem get_metrics_without_wallet E t_start t_last_mint now run W :
  get_metrics E None t_start t_last_mint now run W
  = (Raises (HTTPException 400 "Wallet header required"), W)
  /\ get_metrics E (Some ""%string) t_start t_last_mint now run W
     = (Raises (HTTPException 400 "Wallet header required"), W).
Proof. split; reflexivity. Qed.

(** ** Stopping *)

(** Claim C9.  For every wallet sent as the ["walletAddress"] of the body (or
    left out, which counts as the empty string) [stop_engine] returns
    [{"success": True}] and raises nothing, with or without a session; the
    wallet has no session afterwards, the other wallets keep theirs, nothing
    changes at all when the wallet had no session, and a second call gives
    the same reply and the same state. *)
Theorem stop_engine_idempotent (req : gmap string json) (a : string) (W : world) :
  default (JStr "") (req !! "walletAddress"%string) = JStr a ->
  exists W',
    stop_engine req W = (Returns {| stop_success := true |}, W')
    /\ user_sessions W' !! lower a = None
    /\ (forall w : string, w <> lower a -> user_sessions W' !! w = user_sessions W !! w)
    /\ stdout W' = stdout W
    /\ (user_sessions W !! lower a = None -> W' = W)
    /\ stop_engine req W' = (Returns {| stop_success := true |}, W').
Proof.
  intros Hreq. unfold stop_engine. rewrite Hreq.
  destruct (user_sessions W !! lower a) as [s|] eqn:Hl.
  - eexists. split; [reflexivity|]. simpl.
    rewrite lookup_delete_eq.
    repeat split; try done.
    intros w Hw. by rewrite lookup_delete_ne.
  - exists W. rewrite Hl. repeat split; done.
Qed.

Lemma stop_engine_idempotent_witness :
  exists W',
    stop_engine {[ "walletAddress"%string := JStr "0xABC" ]} Sample.started
    = (Returns {| stop_success := true |}, W')
    /\ user_sessions W' !! "0xabc"%string = None.
Proof.
  assert (Hreq : default (JStr "")
            (({[ "walletAddress"%string := JStr "0xABC" ]} : gmap string json)
               !! "walletAddress"%string) = JStr "0xABC")
    by (rewrite lookup_singleton_eq; reflexivity).
  destruct (stop_engine_idempotent _ "0xABC" Sample.started Hreq) as (W' & H1 & H2 & _).
  exists W'. split; [exact H1 | exact H2].
Defined.

(** ** Settlement inside [get_metrics] *)

(** Claim C1 on the code.  A session started at time 0 is read at time 10 with
    minting enabled.  The call adds the accrual 0.1528...; the gate admits the
    settlement (10 seconds since the last mint); the mint fails, by a timeout
    of the receipt wait, a refusal before sending, or a reverted transaction.
    In each case the call ends with no unsettled amount and [last_mint = 10],
    where the amount before the attempt plus the accrual is 0.1528... *)
Theorem failed_mint_drops_the_accrual :
  let before := new_session 0 0 in
  let after run :=
    user_sessions
      (get_metrics Sample.minting (Some "0xabc"%string) 7 7 10 run Sample.started).2
      !! "0xabc"%string in
  user_sessions Sample.started !! "0xabc"%string = Some before
  /\ admits Sample.minting (10 - last_mint before) = true
  /\ (earned before + accrual Sample.minting 10 before)%float = 0.15282534246575344%float
  /\ (mint_tokens Sample.minting Sample.timeout "0xabc" 0.15282534246575344).2 = Returns None
  /\ (mint_tokens Sample.minting Sample.refused "0xabc" 0.15282534246575344).2 = Returns None
  /\ (mint_tokens Sample.minting Sample.reverted "0xabc" 0.15282534246575344)
     = ([PrintMinting 0.15282534246575344 "0xabc"; PrintTx "0xfeed"; PrintFailed],
        Returns (Some "0xfeed"%string))
  /\ after Sample.timeout = Some {| start := 0; earned := 0; last_mint := 10 |}
  /\ after Sample.refused = Some {| start := 0; earned := 0; last_mint := 10 |}
  /\ after Sample.reverted = Some {| start := 0; earned := 0; last_mint := 10 |}.
Proof. repeat split; vm_compute; reflexivity. Qed.

(** ** Repeated reads *)

(** Claim C3, as stated, fails: a session started at time 0 is read twice at
    time 3, with no clock progress in between and no settlement admitted
    (3 seconds since the last mint).  The first read reports 0.0458..., the
    second 0.0916...: the accrual over the 3 seconds is added once more. *)
Lemma same_instant_reads_differ :
  let call := get_metrics Sample.minting (Some "0xabc"%string) 7 7 3 Sample.confirmed in
  admits Sample.minting (3 - 0) = false
  /\ total_of (call Sample.started).1 = Some 0.045847602739726032%float
  /\ total_of (call (call Sample.started).2).1 = Some 0.091695205479452065%float
  /\ stdout (call (call Sample.started).2).2 = [].
Proof. repeat split; vm_compute; reflexivity. Qed.

(** Claim C3, amended.  For every wallet with a session, two calls of
    [get_metrics] at the same instant [now], with no settlement admitted,
    both return metrics, and the total of the second is the total of the
    first plus the accrual over the whole time [now - start] once more. *)
Theorem same_instant_reads_add_the_accrual_again E h
    t_start t_last_mint t_start' t_last_mint' now run run' W s0 :
  truthy (Some h) = true ->
  user_sessions W !! lower h = Some s0 ->
  admits E (now - last_mint s0) = false ->
  exists m1 W1 m2 W2,
    get_metrics E (Some h) t_start t_last_mint now run W = (Returns m1, W1)
    /\ get_metrics E (Some h) t_start' t_last_mint' now run' W1 = (Returns m2, W2)
    /\ totalProfit m1 = (earned s0 + accrual E now s0)%float
    /\ totalProfit m2 = (totalProfit m1 + accrual E now s0)%float.
Proof.
  intros Hh Hl Hadm.
  destruct (get_metrics_supplied E h t_start t_last_mint now run W Hh)
    as (printed & _ & _ & Hg).
  unfold session_of in Hg. rewrite Hl in Hg. simpl in Hg. rewrite Hadm in Hg.
  eexists _, _. 
  match type of Hg with _ = (_, ?W1) =>
    destruct (get_metrics_supplied E h t_start' t_last_mint' now run' W1 Hh)
      as (printed' & _ & _ & Hg')
  end.
  unfold session_of in Hg'. simpl in Hg'. rewrite lookup_insert_eq in Hg'.
  simpl in Hg'. rewrite Hadm in Hg'.
  eexists _, _. split; [exact Hg|]. split; [exact Hg'|].
  split; reflexivity.
Qed.

Lemma same_instant_reads_add_the_accrual_again_witness :
  exists m1 W1 m2 W2,
    get_metrics Sample.minting (Some "0xabc"%string) 7 7 3 Sample.confirmed Sample.started
    = (Returns m1, W1)
    /\ get_metrics Sample.minting (Some "0xabc"%string) 7 7 3 Sample.confirmed W1
       = (Returns m2, W2)
    /\ totalProfit m2 = (totalProfit m1 + accrual Sample.minting 3 (new_session 0 0))%float.
Proof.
  assert (Hl : user_sessions Sample.started !! lower "0xabc" = Some (new_session 0 0))
    by (vm_compute; reflexivity).
  assert (Hadm : admits Sample.minting (3 - last_mint (new_session 0 0)) = false)
    by (vm_compute; reflexivity).
  destruct (same_instant_reads_add_the_accrual_again Sample.minting "0xabc" 7 7 7 7 3
              Sample.confirmed Sample.confirmed Sample.started (new_session 0 0)
              eq_refl Hl Hadm)
    as (m1 & W1 & m2 & W2 & H1 & H2 & _ & H4).
  exists m1, W1, m2, W2. split; [exact H1|]. split; [exact H2 | exact H4].
Defined.

(** ** The throttle, for calls that do not overlap *)



(** ** The steps of a call *)

Lemma alter_present (m : gmap string session) (k : string) (f : session -> session) s :
  m !! k = Some s -> alter f k m = <[k := f s]> m.
Proof.
  intros Hk. apply map_eq. intros j.
  rewrite lookup_alter, lookup_insert.
  case_decide; subst; by rewrite ?Hk.
Qed.

Module ThreadFacts.
Import Threads.

(** Entering with a wallet header: the session is looked up or created and
    the locals are computed from it. *)
Lemma step_called E i h W :
  truthy (Some h) = true ->
  let s0 := session_of (lower h) (t_start i) (t_last_mint i) W in
  step E i (Called (Some h)) W
  = (AtAccrue {| wallet := lower h; now := t_now i;
                 running := (t_now i - start s0)%float;
                 since_mint := (t_now i - last_mint s0)%float;
                 earnings := 0; apy_ := 0 |},
     set_sessions (<[lower h := s0]> (user_sessions W)) W).
Proof.
  intros Hh s0. subst s0. unfold step, session_of. rewrite Hh. simpl.
  destruct (user_sessions W !! lower h) as [s|] eqn:Hl; simpl.
  - rewrite Hl. rewrite (insert_id _ _ _ Hl). by destruct W.
  - by rewrite lookup_insert_eq.
Qed.

Lemma step_called_missing E i x W :
  truthy x = false ->
  step E i (Called x) W
  = (Finished (Raises (HTTPException 400 "Wallet header required")), W).
Proof. intros Hx. unfold step. by rewrite Hx. Qed.

Lemma step_accrue E i f W s :
  user_sessions W !! wallet f = Some s ->
  step E i (AtAccrue f) W
  = (AtGate (with_earnings f (calculate_earnings E 100000 (running f)).1
                             (calculate_earnings E 100000 (running f)).2),
     set_sessions
       (<[wallet f := add_earned (calculate_earnings E 100000 (running f)).1 s]>
          (user_sessions W)) W).
Proof.
  intros Hl. unfold step.
  destruct (calculate_earnings E 100000 (running f)) as [e a]. simpl.
  by rewrite (alter_present _ _ _ _ Hl).
Qed.

(** Line 133: the argument of the mint call is the amount stored at that
    moment. *)
Lemma step_mint E i f W s :
  user_sessions W !! wallet f = Some s ->
  step E i (AtMint f) W = (InFlight f (earned s), W).
Proof. intros Hl. unfold step. by rewrite Hl. Qed.

(** The mint call always comes back to line 134. *)
Lemma step_in_flight E i f amount W :
  step E i (InFlight f amount) W
  = (AtSettle f, print (mint_tokens E (chain i) (wallet f) amount).1 W).
Proof.
  unfold step.
  by destruct (mint_tokens_returns E (chain i) (wallet f) amount) as (printed & -> & _).
Qed.

(** Lines 134-135 overwrite: whatever amount is stored at that moment is
    replaced by 0. *)
Lemma step_settle E i f W s :
  user_sessions W !! wallet f = Some s ->
  step E i (AtSettle f) W
  = (AtReply f,
     set_sessions
       (<[wallet f := {| start := start s; earned := 0; last_mint := now f |}]>
          (user_sessions W)) W).
Proof. intros Hl. unfold step. by rewrite (alter_present _ _ _ _ Hl). Qed.

Lemma step_reply E i f W s :
  user_sessions W !! wallet f = Some s ->
  step E i (AtReply f) W
  = (Finished (Returns (reply s (hourly_rate (earnings f) (running f)) (apy_ f))), W).
Proof. intros Hl. unfold step. by rewrite Hl. Qed.

Lemma step_gate E i f W :
  step E i (AtGate f) W = (if admits E (since_mint f) then AtMint f else AtReply f, W).
Proof. unfold step. by destruct (admits E (since_mint f)). Qed.

Lemma finished_stays E i r W n :
  Nat.iter n (fun tW => step E i tW.1 tW.2) (Finished r, W) = (Finished r, W).
Proof. induction n as [|n IH]; [reflexivity|]. simpl. by rewrite IH. Qed.

#[local] Opaque step calculate_earnings admits hourly_rate mint_tokens.

(** A call that runs from start to finish with nothing in between does what
    the function [get_metrics] does: the cut into steps adds nothing. *)
Lemma alone_is_get_metrics E i x W :
  alone E i x W
  = (Finished (get_metrics E x (t_start i) (t_last_mint i) (t_now i) (chain i) W).1,
     (get_metrics E x (t_start i) (t_last_mint i) (t_now i) (chain i) W).2).
Proof.
  unfold alone.
  destruct (truthy x) eqn:Hx.
  - destruct x as [h|]; [|discriminate].
    rewrite (get_metrics_exact E h _ _ _ _ W Hx). cbn [fst snd].
    set (s0 := session_of (lower h) (t_start i) (t_last_mint i) W).
    rewrite Nat.iter_succ_r. cbn [fst snd].
    rewrite (step_called E i h W Hx). fold s0.
    rewrite Nat.iter_succ_r. cbn [fst snd].
    erewrite step_accrue by (simpl; apply lookup_insert_eq).
    cbn [wallet running]. fold (accrual E (t_now i) s0).
    rewrite Nat.iter_succ_r. cbn [fst snd].
    rewrite step_gate. cbn [since_mint with_earnings].
    unfold printed_by.
    destruct (admits E (t_now i - last_mint s0)).
    + rewrite Nat.iter_succ_r. cbn [fst snd].
      erewrite step_mint by (simpl; apply lookup_insert_eq).
      rewrite Nat.iter_succ_r. cbn [fst snd].
      rewrite step_in_flight. cbn [wallet].
      rewrite Nat.iter_succ_r. cbn [fst snd].
      erewrite step_settle by (simpl; apply lookup_insert_eq).
      rewrite Nat.iter_succ_r. cbn [fst snd].
      erewrite step_reply by (simpl; apply lookup_insert_eq).
      cbn [Nat.iter]. unfold set_sessions, print, settled. simpl.
      by rewrite !insert_insert_eq.
    + rewrite Nat.iter_succ_r. cbn [fst snd].
      erewrite step_reply by (simpl; apply lookup_insert_eq).
      rewrite finished_stays. unfold set_sessions. simpl.
      by rewrite !insert_insert_eq, app_nil_r.
  - rewrite Nat.iter_succ_r. cbn [fst snd].
    rewrite (step_called_missing E i x W Hx), finished_stays.
    unfold get_metrics. by rewrite Hx.
Qed.

End ThreadFacts.

(** ** Overlapping calls *)


(** ** More facts about binary64 arithmetic *)

Module FloatFacts2.

(** A finite float minus itself is [+0]. *)
Lemma sub_diag (x : float) : is_finite x = true -> (x - x)%float = 0%float.
Proof.
  unfold is_finite. intros Hfin. apply Prim2SF_inj. rewrite sub_spec.
  change (Prim2SF 0) with (S754_zero false).
  destruct (Prim2SF x) as [s|s| |s m e]; try discriminate.
  - by destruct s.
  - unfold SF64sub, SFsub. by rewrite Z.sub_diag.
Qed.

(** A float above zero is not zero: the division of line 139 has a non-zero
    divisor. *)
Lemma ltb_0_not_eqb (x : float) : (0 <? x)%float = true -> (x =? 0)%float = false.
Proof.
  rewrite ltb_spec, FloatAxioms.eqb_spec. unfold SFltb, SFeqb.
  rewrite (FloatFacts.SFcompare_swap (Prim2SF 0) (Prim2SF x)).
  destruct (SFcompare (Prim2SF 0) (Prim2SF x)) as [[]|]; simpl; congruence.
Qed.


End FloatFacts2.

(** ** Canonical keys *)

Lemma lower_ascii_idempotent (c : ascii) : lower_ascii (lower_ascii c) = lower_ascii c.
Proof.
  unfold lower_ascii at 2.
  destruct ((65 <=? N_of_ascii c)%N && (N_of_ascii c <=? 90)%N) eqn:Hc; [|reflexivity].
  apply andb_true_iff in Hc as [Hlo Hhi].
  destruct (lower_ascii_capital c Hlo Hhi) as [-> Hfix]. exact Hfix.
Qed.

(** Lower-casing a lower-cased string changes nothing. *)
Lemma lower_idempotent (s : string) : lower (lower s) = lower s.
Proof. induction s as [|c s IH]; simpl; [done|]. by rewrite lower_ascii_idempotent, IH. Qed.

Lemma start_engine_canonical req t_start t_last_mint W :
  canonical_keys W -> canonical_keys (start_engine req t_start t_last_mint W).2.
Proof.
  intros HW w. simpl. rewrite lookup_insert. case_decide as Hw.
  - intros _. subst w. apply lower_idempotent.
  - apply HW.
Qed.

Lemma get_metrics_canonical E x t_start t_last_mint now run W :
  canonical_keys W -> canonical_keys (get_metrics E x t_start t_last_mint now run W).2.
Proof.
  intros HW. destruct (truthy x) eqn:Hx.
  - destruct x as [h|]; [|discriminate].
    rewrite (get_metrics_exact E h _ _ _ _ W Hx). simpl.
    intros w. simpl. rewrite lookup_insert. case_decide as Hw.
    + intros _. subst w. apply lower_idempotent.
    + apply HW.
  - unfold get_metrics. by rewrite Hx.
Qed.

Lemma stop_engine_canonical req W :
  canonical_keys W -> canonical_keys (stop_engine req W).2.
Proof.
  intros HW. unfold stop_engine.
  destruct (default (JStr "") (req !! "walletAddress"%string)) as [a|]; [|done].
  destruct (user_sessions W !! lower a); [|done].
  intros w. simpl. rewrite lookup_delete. case_decide; [by intros [? ?]|apply HW].
Qed.

(** ** Starting, reading and stopping together *)

(** Property X2.  Stopping undoes starting: after [start_engine] for an
    address, [stop_engine] for any case variant of it succeeds and leaves
    the sessions as they were without the wallet; when the wallet had no
    session before the start, the state is the one before the start. *)
Theorem stop_undoes_start (req : EngineRequest) (b : string) t_start t_last_mint W :
  case_variant (walletAddress req) b = true ->
  let W1 := (start_engine req t_start t_last_mint W).2 in
  let body : gmap string json := {[ "walletAddress"%string := JStr b ]} in
  (stop_engine body W1).1 = Returns {| stop_success := true |}
  /\ user_sessions (stop_engine body W1).2
     = delete (lower (walletAddress req)) (user_sessions W)
  /\ stdout (stop_engine body W1).2 = stdout W
  /\ (user_sessions W !! lower (walletAddress req) = None ->
      (stop_engine body W1).2 = W).
Proof.
  intros Hcv W1 body.
  assert (Hkey : lower b = lower (walletAddress req))
    by (symmetry; by apply case_variant_lower).
  assert (Hstop : stop_engine body W1
                  = (Returns {| stop_success := true |},
                     set_sessions (delete (lower b) (user_sessions W1)) W1)).
  { unfold stop_engine, body. rewrite lookup_singleton_eq. simpl.
    rewrite Hkey. subst W1. simpl. by rewrite lookup_insert_eq. }
  rewrite Hstop. simpl. rewrite Hkey, delete_insert_eq.
  repeat split. intros Hnone. destruct W as [m out]. simpl in *.
  unfold set_sessions. simpl. f_equal. by apply delete_id.
Qed.

Lemma stop_undoes_start_witness :
  (stop_engine {[ "walletAddress"%string := JStr "0xabc" ]}
     (start_engine (Sample.request "0xABC") 0 0 Sample.fresh).2).2 = Sample.fresh.
Proof.
  assert (Hnone : user_sessions Sample.fresh !! lower "0xABC" = None) by reflexivity.
  exact (proj2 (proj2 (proj2
    (stop_undoes_start (Sample.request "0xABC") "0xabc" 0 0 Sample.fresh eq_refl))) Hnone).
Defined.

(** Property X3.  [start_engine] restarts: whatever session the wallet had,
    unsettled amount included, is replaced by a new one with nothing
    earned; the sessions of the other wallets and the output are untouched;
    and of two starts for case variants of one address only the second
    counts. *)
Theorem start_engine_restarts (req req' : EngineRequest) t_start t_last_mint t3 t4 W :
  let W1 := (start_engine req t_start t_last_mint W).2 in
  user_sessions W1 !! lower (walletAddress req) = Some (new_session t_start t_last_mint)
  /\ (forall w : string, w <> lower (walletAddress req) ->
        user_sessions W1 !! w = user_sessions W !! w)
  /\ stdout W1 = stdout W
  /\ (case_variant (walletAddress req) (walletAddress req') = true ->
      start_engine req' t3 t4 W1 = start_engine req' t3 t4 W).
Proof.
  intros W1. split; [apply lookup_insert_eq|].
  split; [intros w Hw; by apply lookup_insert_ne|]. split; [reflexivity|].
  intros Hcv. unfold start_engine. subst W1. simpl.
  rewrite (case_variant_lower _ _ Hcv). unfold set_sessions. simpl.
  by rewrite insert_insert_eq.
Qed.

Lemma start_engine_restarts_witness :
  start_engine (Sample.request "0xabc") 3 4 Sample.started
  = start_engine (Sample.request "0xabc") 3 4 Sample.fresh.
Proof.
  exact (proj2 (proj2 (proj2
    (start_engine_restarts (Sample.request "0xABC") (Sample.request "0xabc")
       0 0 3 4 Sample.fresh))) eq_refl).
Defined.

(** Property X4.  A call of [get_metrics] touches one session only: the
    sessions of all other wallets are as before, no session is removed, the
    only key that can be new is the lower-cased wallet, and the ["start"]
    of the wallet's session is never changed, settlement or not. *)
Theorem get_metrics_touches_one_session E h t_start t_last_mint now run W :
  truthy (Some h) = true ->
  let W' := (get_metrics E (Some h) t_start t_last_mint now run W).2 in
  (forall w : string, w <> lower h -> user_sessions W' !! w = user_sessions W !! w)
  /\ dom (user_sessions W') = {[ lower h ]} ∪ dom (user_sessions W)
  /\ exists s',
       user_sessions W' !! lower h = Some s'
       /\ start s' = start (session_of (lower h) t_start t_last_mint W).
Proof.
  intros Hh W'. subst W'. rewrite (get_metrics_exact E h _ _ _ _ W Hh). simpl.
  split; [intros w Hw; by apply lookup_insert_ne|].
  split; [apply dom_insert_L|].
  eexists. split; [apply lookup_insert_eq|].
  by destruct (admits E _).
Qed.

Lemma get_metrics_touches_one_session_witness :
  user_sessions
    (get_metrics Sample.minting (Some "0xDEF"%string) 7 7 20 Sample.confirmed
       Sample.started).2 !! "0xabc"%string
  = user_sessions Sample.started !! "0xabc"%string.
Proof.
  exact (proj1 (get_metrics_touches_one_session Sample.minting "0xDEF" 7 7 20
                  Sample.confirmed Sample.started eq_refl)
           "0xabc"%string ltac:(discriminate)).
Defined.

(** Property X6.  The first read of a wallet starts its session: on a wallet
    without a session [get_metrics] does what it does after a
    [start_engine] for (a case variant of) the wallet that read the same
    two clock values. *)
Theorem first_read_starts_the_session E (req : EngineRequest) h
    t_start t_last_mint t_start' t_last_mint' now run W :
  truthy (Some h) = true ->
  case_variant (walletAddress req) h = true ->
  user_sessions W !! lower h = None ->
  get_metrics E (Some h) t_start t_last_mint now run W
  = get_metrics E (Some h) t_start' t_last_mint' now run
      (start_engine req t_start t_last_mint W).2.
Proof.
  intros Hh Hcv Hnone.
  rewrite !(get_metrics_exact E h _ _ _ _ _ Hh). simpl.
  unfold session_of. simpl.
  rewrite Hnone, (case_variant_lower _ _ Hcv), lookup_insert_eq. simpl.
  by rewrite insert_insert_eq.
Qed.

Lemma first_read_starts_the_session_witness :
  get_metrics Sample.minting (Some "0xabc"%string) 0 0 10 Sample.confirmed Sample.fresh
  = get_metrics Sample.minting (Some "0xabc"%string) 7 7 10 Sample.confirmed Sample.started.
Proof.
  exact (first_read_starts_the_session Sample.minting (Sample.request "0xABC") "0xabc"
           0 0 7 7 10 Sample.confirmed Sample.fresh eq_refl eq_refl eq_refl).
Defined.

(** ** What a call replies and prints *)

(** Property X7.  The division of line 139 never has a zero divisor: with
    the division checked as Python checks it, the hourly rate is always
    computed, and it is the one of [get_metrics]; it is 0 unless the clock
    has moved past the session's start. *)
Theorem hourly_rate_never_divides_by_zero (earnings running : float) :
  hourly_rate_checked earnings running = Some (hourly_rate earnings running)
  /\ ((0 <? running)%float = false -> hourly_rate earnings running = 0%float).
Proof.
  unfold hourly_rate_checked, hourly_rate, checked_div.
  destruct (0 <? running)%float eqn:Hr; [|done].
  by rewrite (FloatFacts2.ltb_0_not_eqb _ Hr).
Qed.

Lemma hourly_rate_never_divides_by_zero_witness :
  (0 <? 0)%float = false /\ hourly_rate 1 0 = 0%float.
Proof.
  assert (H : (0 <? 0)%float = false) by reflexivity.
  split; [exact H|].
  exact (proj2 (hourly_rate_never_divides_by_zero 1 0) H).
Defined.

Lemma effective_apy_of_calculation E principal seconds :
  (calculate_earnings E principal seconds).2 = spec_effectiveApy E.
Proof. unfold calculate_earnings. simpl. apply total_apy_boost_first. Qed.

(** Property X8.  The figures of a reply hang together: the daily profit is
    24 times the hourly rate, the pending rewards are a tenth of the total
    profit, the total profit is the amount left in the session, there are
    12 active positions, and the APY reported is 100 times the effective
    APY of the table. *)
Theorem reply_figures_hang_together E h t_start t_last_mint now run W :
  truthy (Some h) = true ->
  exists m s',
    get_metrics E (Some h) t_start t_last_mint now run W
    = (Returns m, (get_metrics E (Some h) t_start t_last_mint now run W).2)
    /\ user_sessions (get_metrics E (Some h) t_start t_last_mint now run W).2 !! lower h
       = Some s'
    /\ totalProfit m = earned s'
    /\ dailyProfit m = (hourlyRate m * 24)%float
    /\ pendingRewards m = (totalProfit m * 0.1)%float
    /\ activePositions m = 12%nat
    /\ total_apy m = (spec_effectiveApy E * 100)%float.
Proof.
  intros Hh. rewrite (get_metrics_exact E h _ _ _ _ W Hh). cbn [fst snd user_sessions].
  eexists _, _. split; [reflexivity|]. split; [apply lookup_insert_eq|].
  unfold reply. cbn [totalProfit dailyProfit hourlyRate pendingRewards activePositions
                     total_apy].
  repeat split. by rewrite effective_apy_of_calculation.
Qed.

Lemma reply_figures_hang_together_witness :
  exists m,
    (get_metrics Sample.minting (Some "0xabc"%string) 7 7 3 Sample.confirmed
       Sample.started).1 = Returns m
    /\ dailyProfit m = (hourlyRate m * 24)%float
    /\ pendingRewards m = (totalProfit m * 0.1)%float.
Proof.
  destruct (reply_figures_hang_together Sample.minting "0xabc" 7 7 3 Sample.confirmed
              Sample.started eq_refl) as (m & s' & Hg & _ & _ & Hd & Hp & _).
  exists m. rewrite Hg. repeat split; assumption.
Defined.

(** ** The minting helper, case by case *)

Lemma mint_tokens_disabled E run wallet amount :
  minting_enabled E = false -> mint_tokens E run wallet amount = ([], Returns None).
Proof.
  unfold minting_enabled, mint_tokens. by destruct (w3 E), (admin_account E).
Qed.

Lemma mint_tokens_dust E run wallet amount n :
  token_amount_of amount = Returns n -> n <= 0 ->
  mint_tokens E run wallet amount = ([], Returns None).
Proof.
  unfold token_amount_of, mint_tokens. intros Hn Hle.
  destruct (negb (w3 E) || negb (admin_account E)); [done|].
  rewrite Hn. simpl. by rewrite (proj2 (Z.leb_le n 0) Hle).
Qed.


Lemma mint_tokens_positive E run wallet amount n :
  minting_enabled E = true -> token_amount_of amount = Returns n -> 0 < n ->
  mint_tokens E run wallet amount
  = match run with
    | FailsBeforeSend e => ([PrintMinting amount wallet; PrintError e], Returns None)
    | FailsAfterSend tx_hash e =>
        ([PrintMinting amount wallet; PrintTx tx_hash; PrintError e], Returns None)
    | Receipt tx_hash status blockNumber =>
        (PrintMinting amount wallet :: PrintTx tx_hash ::
           (if status =? 1
            then [PrintConfirmed blockNumber; PrintEtherscan tx_hash]
            else [PrintFailed]),
         Returns (Some tx_hash))
    end.
Proof.
  unfold minting_enabled, token_amount_of, mint_tokens. intros HE Hn Hpos.
  destruct (w3 E), (admin_account E); try discriminate. simpl. rewrite Hn. simpl.
  rewrite (proj2 (Z.leb_gt n 0) Hpos).
  destruct run as [e|h e|h st b]; try reflexivity.
  unfold mint_exchange, bind, say, ret. simpl. by destruct (st =? 1).
Qed.

Lemma admits_enabled E since_mint :
  admits E since_mint = (5 <=? since_mint)%float && minting_enabled E.
Proof. unfold admits, minting_enabled. by rewrite andb_assoc. Qed.

(** Splits a membership in an explicit list into its cases, dropping those
    that name another constructor. *)
Ltac in_list H :=
  repeat (apply elem_of_cons in H as [H|H]; [try discriminate|]);
  try (by apply elem_of_nil in H).



(** ** Calls that settle, and calls that cannot *)

(** Property X12.  An admitted settlement of less than one atomic unit (an
    amount that is zero, negative or below 1e-18 included) is dropped
    without a mint: nothing is printed and the web3 exchange plays no part,
    and yet the session ends with nothing earned and [last_mint = now]. *)
Theorem dust_is_dropped_without_a_mint E h t_start t_last_mint now run W n :
  truthy (Some h) = true ->
  let s0 := session_of (lower h) t_start t_last_mint W in
  admits E (now - last_mint s0) = true ->
  token_amount_of (earned s0 + accrual E now s0) = Returns n ->
  n <= 0 ->
  let W' := (get_metrics E (Some h) t_start t_last_mint now run W).2 in
  stdout W' = stdout W
  /\ user_sessions W' !! lower h
     = Some {| start := start s0; earned := 0; last_mint := now |}.
Proof.
  intros Hh s0 Hadm Hn Hle W'. subst W'.
  rewrite (get_metrics_exact E h _ _ _ _ W Hh). cbn [snd stdout user_sessions].
  fold s0. unfold printed_by. fold s0. rewrite Hadm.
  split; [|apply lookup_insert_eq].
  change (earned (add_earned (accrual E now s0) s0))
    with (earned s0 + accrual E now s0)%float.
  rewrite (mint_tokens_dust E run (lower h) _ n Hn Hle). simpl. apply app_nil_r.
Qed.

Lemma dust_is_dropped_without_a_mint_witness :
  let W' := (get_metrics Sample.minting (Some "0xabc"%string) 7 7 (-10) Sample.confirmed
               (start_engine (Sample.request "0xabc") 0 (-20) Sample.fresh).2).2 in
  stdout W' = []
  /\ user_sessions W' !! "0xabc"%string
     = Some {| start := 0; earned := 0; last_mint := -10 |}.
Proof.
  exact (dust_is_dropped_without_a_mint Sample.minting "0xabc" 7 7 (-10) Sample.confirmed
           (start_engine (Sample.request "0xabc") 0 (-20) Sample.fresh).2
           (-152825342465753440) eq_refl
           ltac:(vm_compute; reflexivity) ltac:(vm_compute; reflexivity) ltac:(lia)).
Defined.



(** ** Degraded and idle operation *)

Lemma zero_elapsed_accrues_zero E : (calculate_earnings E 100000 0).1 = 0%float.
Proof. destruct E as [? ? []]; vm_compute; reflexivity. Qed.

(** Property X14.  A read at the very instant of the start finds nothing:
    after [start_engine] at a (finite) clock reading, [get_metrics] at the
    same reading replies with a total, an hourly rate, a daily profit and
    pending rewards of 0, prints nothing, attempts no settlement, and leaves
    the state as the start left it. *)
Theorem read_at_the_start_finds_nothing E (req : EngineRequest)
    t t_last_mint t_start' t_last_mint' run W :
  walletAddress req <> ""%string ->
  is_finite t = true ->
  (t - t_last_mint <? 5)%float = true ->
  let W1 := (start_engine req t t_last_mint W).2 in
  get_metrics E (Some (walletAddress req)) t_start' t_last_mint' t run W1
  = (Returns {| totalProfit := 0; hourlyRate := 0; dailyProfit := 0;
                activePositions := 12; pendingRewards := 0;
                total_apy := (spec_effectiveApy E * 100)%float |},
     W1).
Proof.
  intros Hne Hfin Hlt W1.
  assert (Hh : truthy (Some (walletAddress req)) = true)
    by (destruct (walletAddress req); [done|reflexivity]).
  rewrite (get_metrics_exact E _ _ _ _ _ W1 Hh).
  assert (Hs0 : session_of (lower (walletAddress req)) t_start' t_last_mint' W1
                = new_session t t_last_mint).
  { unfold session_of. subst W1. simpl. by rewrite lookup_insert_eq. }
  rewrite Hs0. unfold printed_by, accrual. cbn [start last_mint new_session].
  rewrite (FloatFacts2.sub_diag t Hfin), zero_elapsed_accrues_zero.
  rewrite effective_apy_of_calculation.
  assert (Hno : admits E (t - t_last_mint) = false).
  { unfold admits. by rewrite (FloatFacts.ltb_not_leb _ _ Hlt). }
  rewrite Hno, app_nil_r.
  f_equal.
  subst W1. unfold start_engine, set_sessions, add_earned, new_session. simpl.
  by rewrite insert_insert_eq.
Qed.

Lemma read_at_the_start_finds_nothing_witness :
  get_metrics Sample.minting (Some "0xABC"%string) 7 7 0 Sample.confirmed Sample.started
  = (Returns {| totalProfit := 0; hourlyRate := 0; dailyProfit := 0;
                activePositions := 12; pendingRewards := 0;
                total_apy := (spec_effectiveApy Sample.minting * 100)%float |},
     Sample.started).
Proof.
  exact (read_at_the_start_finds_nothing Sample.minting (Sample.request "0xABC")
           0 0 7 7 Sample.confirmed Sample.fresh
           ltac:(discriminate) eq_refl ltac:(vm_compute; reflexivity)).
Defined.

Lemma handle_disabled_prints_nothing E r W :
  minting_enabled E = false -> stdout (handle E r W) = stdout W.
Proof.
  intros HE. destruct r as [req t1 t2|x t1 t2 now run|req]; simpl.
  - reflexivity.
  - destruct (truthy x) eqn:Hx.
    + destruct x as [h|]; [|discriminate].
      rewrite (get_metrics_exact E h _ _ _ _ W Hx). simpl.
      unfold printed_by. rewrite admits_enabled, HE, andb_false_r. apply app_nil_r.
    + unfold get_metrics. by rewrite Hx.
  - unfold stop_engine.
    destruct (default (JStr "") (req !! "walletAddress"%string)) as [a|]; [|done].
    by destruct (user_sessions W !! lower a).
Qed.

(** Property X15.  Without credentials the process degrades to accrual
    only: when [w3] or [admin_account] is not set, no sequence of requests
    prints anything (so no mint is ever attempted), and a read of a wallet
    leaves its [last_mint] alone and adds the accrual to what it has
    earned. *)
Theorem disabled_minting_only_accrues E (rs : list request) h
    t_start t_last_mint now run W :
  minting_enabled E = false ->
  stdout (serve E rs W) = stdout W
  /\ (truthy (Some h) = true ->
      let s0 := session_of (lower h) t_start t_last_mint W in
      user_sessions (get_metrics E (Some h) t_start t_last_mint now run W).2 !! lower h
      = Some {| start := start s0;
                earned := (earned s0 + accrual E now s0)%float;
                last_mint := last_mint s0 |}).
Proof.
  intros HE. split.
  - unfold serve. revert W. induction rs as [|r rs IH]; intros W; [done|].
    simpl. rewrite IH. by apply handle_disabled_prints_nothing.
  - intros Hh s0. rewrite (get_metrics_exact E h _ _ _ _ W Hh). simpl.
    fold s0. rewrite admits_enabled, HE, andb_false_r. apply lookup_insert_eq.
Qed.

Lemma disabled_minting_only_accrues_witness :
  stdout (serve Sample.disabled
            [GetMetrics (Some "0xabc"%string) 7 7 100 Sample.confirmed;
             GetMetrics (Some "0xabc"%string) 7 7 200 Sample.confirmed]
            Sample.started) = [].
Proof.
  exact (proj1 (disabled_minting_only_accrues Sample.disabled
                  [GetMetrics (Some "0xabc"%string) 7 7 100 Sample.confirmed;
                   GetMetrics (Some "0xabc"%string) 7 7 200 Sample.confirmed]
                  "0xabc" 7 7 100 Sample.confirmed Sample.started eq_refl)).
Defined.

(** Property X17.  With minting disabled, reads pile up: after any number of
    reads of a wallet at the times [times], what the session has earned is
    what it had plus, for each read, the accrual over the whole time from
    the session's start to that read; ["start"] and ["last_mint"] stay. *)
Theorem reads_pile_up_the_accruals E h t_start t_last_mint run (times : list float) W s0 :
  minting_enabled E = false ->
  truthy (Some h) = true ->
  user_sessions W !! lower h = Some s0 ->
  user_sessions
    (serve E ((fun now => GetMetrics (Some h) t_start t_last_mint now run) <$> times) W)
    !! lower h
  = Some {| start := start s0;
            earned := fold_left (fun e now => (e + accrual E now s0)%float) times (earned s0);
            last_mint := last_mint s0 |}.
Proof.
  intros HE Hh. unfold serve. revert W s0.
  induction times as [|now times IH]; intros W s0 Hl.
  - simpl. rewrite Hl. by destruct s0.
  - rewrite fmap_cons. cbn [fold_left handle].
    pose proof (proj2 (disabled_minting_only_accrues E [] h t_start t_last_mint now run W HE)
                  Hh) as Hstep.
    unfold session_of in Hstep. rewrite Hl in Hstep. simpl in Hstep.
    rewrite (IH _ _ Hstep). reflexivity.
Qed.

Lemma reads_pile_up_the_accruals_witness :
  user_sessions
    (serve Sample.disabled
       ((fun now => GetMetrics (Some "0xabc"%string) 7 7 now Sample.confirmed)
          <$> [3; 3; 10]%float)
       Sample.started) !! "0xabc"%string
  = Some {| start := 0; earned := 0.2445205479452055; last_mint := 0 |}.
Proof.
  assert (Hl : user_sessions Sample.started !! lower "0xabc" = Some (new_session 0 0))
    by (vm_compute; reflexivity).
  pose proof (reads_pile_up_the_accruals Sample.disabled "0xabc" 7 7 Sample.confirmed
                [3; 3; 10]%float Sample.started (new_session 0 0) eq_refl eq_refl Hl)
    as Hsum.
  change (lower "0xabc") with "0xabc"%string in Hsum.
  rewrite Hsum. vm_compute. reflexivity.
Defined.

(** ** Calls in any interleaving *)

Lemma step_other_wallet E i t W (w : string) :
  wallet_of t <> Some w ->
  user_sessions (Threads.step E i t W).2 !! w = user_sessions W !! w
  /\ wallet_of (Threads.step E i t W).1 <> Some w.
Proof.
  intros Hw. destruct t as [x|f|f|f|f amount|f|f|r]; simpl in *; try done.
  - destruct (truthy x); simpl; [|done].
    destruct (user_sessions W !! lower (default ""%string x)) as [s|] eqn:Hl; simpl.
    + by rewrite Hl.
    + rewrite lookup_insert_eq. simpl. split; [|done].
      apply lookup_insert_ne. congruence.
  - destruct (calculate_earnings E 100000 (Threads.running f)) as [e a]. simpl.
    split; [|done]. apply lookup_alter_ne. congruence.
  - by destruct (admits E (Threads.since_mint f)).
  - by destruct (user_sessions W !! Threads.wallet f).
  - by destruct (mint_tokens E (Threads.chain i) (Threads.wallet f) amount)
      as [printed [r|e]].
  - split; [|done]. apply lookup_alter_ne. congruence.
  - by destruct (user_sessions W !! Threads.wallet f).
Qed.

(** Property X19.  Calls for other wallets never touch a wallet's session,
    however they are interleaved: when none of the calls in progress works
    for the wallet [w], the session stored for [w] (or its absence) is the
    same after any schedule. *)
Theorem interleaved_calls_leave_other_wallets (E : env)
    (schedule : list (nat * Threads.input)) (S : Threads.system) (w : string) :
  Forall (fun t => wallet_of t <> Some w) (Threads.calls S) ->
  user_sessions (Threads.shared (Threads.run E schedule S)) !! w
  = user_sessions (Threads.shared S) !! w.
Proof.
  unfold Threads.run. revert S.
  induction schedule as [|[n i] rest IH]; intros S HS; [done|].
  simpl.
  assert (Hstep : Forall (fun t => wallet_of t <> Some w)
                    (Threads.calls (Threads.sys_step E n i S))
                  /\ user_sessions (Threads.shared (Threads.sys_step E n i S)) !! w
                     = user_sessions (Threads.shared S) !! w).
  { unfold Threads.sys_step.
    destruct (Threads.calls S !! n) as [t|] eqn:Hn; [|done].
    pose proof (Forall_lookup_1 (fun t => wallet_of t <> Some w) _ _ _ HS Hn) as Ht.
    destruct (step_other_wallet E i t (Threads.shared S) w Ht) as [Hsame Hnew].
    destruct (Threads.step E i t (Threads.shared S)) as [t' W']. simpl in *.
    split; [|done]. by apply Forall_insert. }
  destruct Hstep as [HS' Hsame]. rewrite (IH _ HS'). exact Hsame.
Qed.

Lemma interleaved_calls_leave_other_wallets_witness :
  user_sessions
    (Threads.shared
       (Threads.run Sample.minting Overlap.both_admitted
          {| Threads.calls := [Threads.Called (Some "0xDEF"%string);
                               Threads.Called (Some "0x123"%string)];
             Threads.shared := Sample.started |})) !! "0xabc"%string
  = user_sessions Sample.started !! "0xabc"%string.
Proof.
  apply (interleaved_calls_leave_other_wallets Sample.minting Overlap.both_admitted
           {| Threads.calls := [Threads.Called (Some "0xDEF"%string);
                                Threads.Called (Some "0x123"%string)];
              Threads.shared := Sample.started |} "0xabc").
  repeat constructor; vm_compute; discriminate.
Defined.

(** ** Stopping, in every case *)

(** Property X20.  [stop_engine] on any body: it raises, an
    [AttributeError], exactly when ["walletAddress"] is present and not a
    string, and then nothing changes; otherwise it reports success, removes
    the session of the lower-cased address if there is one (the session of
    the empty address when the body names no wallet), and never adds a
    session or prints. *)
Theorem stop_engine_on_any_body (req : gmap string json) (W : world) :
  match req !! "walletAddress"%string with
  | Some JOther => stop_engine req W = (Raises AttributeError, W)
  | Some (JStr a) =>
      stop_engine req W
      = (Returns {| stop_success := true |},
         {| user_sessions := delete (lower a) (user_sessions W); stdout := stdout W |})
  | None =>
      stop_engine req W
      = (Returns {| stop_success := true |},
         {| user_sessions := delete ""%string (user_sessions W); stdout := stdout W |})
  end.
Proof.
  unfold stop_engine.
  destruct (req !! "walletAddress"%string) as [[a|]|]; simpl; try done.
  - destruct (user_sessions W !! lower a) eqn:Hl; [done|].
    rewrite (delete_id _ _ Hl). by destruct W.
  - destruct (user_sessions W !! ""%string) eqn:Hl; [done|].
    rewrite (delete_id _ _ Hl). by destruct W.
Qed.

(** ** The handlers with a [print] that can fail: basic facts *)

Module IoFacts.

(** Case analysis on the outcomes of the calls of [print] met in the goal. *)
Ltac prints c :=
  repeat (simpl;
          match goal with
          | |- context [c ?k] => let H := fresh "Hc" in destruct (c k) eqn:H
          end).

(** With a console that writes every line, [mint_tokens] is the function of
    the first part of the file, on the course the exchange can take for the
    wallet. *)
Lemma mint_tokens_written E run wallet amount (c : Io.console) n :
  (forall k, c k = None) ->
  (Io.mint_tokens E run wallet amount c n).1.2
  = (mint_tokens E (Io.course_for wallet run) wallet amount).1
  /\ (Io.mint_tokens E run wallet amount c n).2
     = (mint_tokens E (Io.course_for wallet run) wallet amount).2.
Proof.
  intros Hc.
  unfold Io.mint_tokens, mint_tokens.
  destruct (negb (w3 E) || negb (admin_account E)); [done|].
  unfold Io.try_except, Io.bind, Io.lift, try_except, bind, lift.
  destruct (Py.int _) as [k|e]; simpl.
  - destruct (k <=? 0); [done|].
    unfold Io.mint_exchange, mint_exchange, Io.bind, Io.say, Io.raise, Io.ret,
      bind, say, raise, ret.
    rewrite !Hc.
    destruct (Io.course_for wallet run) as [e|h e|h st b]; simpl; rewrite ?Hc; simpl;
      try done.
    destruct (st =? 1); simpl; rewrite ?Hc; simpl; rewrite ?Hc; done.
  - unfold Io.say. rewrite Hc. done.
Qed.

(** [mint_tokens] raises only through the [print] of its handler: the
    exception that comes out is the one of its last call of [print]. *)
Lemma mint_tokens_raises E run wallet amount (c : Io.console) n n' ls e :
  Io.mint_tokens E run wallet amount c n = (n', ls, Raises e) ->
  exists k, (n <= k)%nat /\ n' = S k /\ c k = Some e /\ minting_enabled E = true.
Proof.
  unfold Io.mint_tokens, minting_enabled.
  destruct (w3 E), (admin_account E); simpl; try discriminate.
  unfold Io.try_except, Io.bind, Io.lift, Io.mint_exchange, Io.bind, Io.say,
    Io.raise, Io.ret.
  destruct (Py.int _) as [t|e0]; simpl.
  - destruct (t <=? 0); simpl; [discriminate|].
    destruct (Io.course_for wallet run) as [e1|h e1|h st b]; [| |destruct (st =? 1)];
      prints c; intros [= <- <- <-] || intros [= <- <-] || discriminate;
      eexists; (split; [|split; [reflexivity|split; [eassumption|reflexivity]]]); lia.
  - prints c; intros [= <- <- <-] || discriminate.
    eexists; (split; [|split; [reflexivity|split; [eassumption|reflexivity]]]); lia.
Qed.

(** A hash comes back only from an exchange that reached a receipt. *)
Lemma mint_tokens_returns_hash E run wallet amount (c : Io.console) n n' ls h :
  Io.mint_tokens E run wallet amount c n = (n', ls, Returns (Some h)) ->
  exists status blockNumber, Io.course_for wallet run = Receipt h status blockNumber.
Proof.
  unfold Io.mint_tokens.
  destruct (negb (w3 E) || negb (admin_account E)); simpl; [discriminate|].
  unfold Io.try_except, Io.bind, Io.lift, Io.mint_exchange, Io.bind, Io.say,
    Io.raise, Io.ret.
  destruct (Py.int _) as [t|e0]; simpl.
  - destruct (t <=? 0); simpl; [discriminate|].
    destruct (Io.course_for wallet run) as [e1|h1 e1|h1 st b]; [| |destruct (st =? 1)];
      prints c; try discriminate; intros [= <- <- <-]; by eexists _, _.
  - prints c; discriminate.
Qed.


#[local] Opaque calculate_earnings admits hourly_rate Io.mint_tokens.

(** [get_metrics] with a wallet header, in closed form: what the session
    becomes and what is printed, from how the mint call ends. *)
Lemma get_metrics_on_console E (c : Io.console) h t_start t_last_mint now run W :
  truthy (Some h) = true ->
  let wallet := lower h in
  let s0 := session_of wallet t_start t_last_mint W in
  let s1 := add_earned (accrual E now s0) s0 in
  let hourly := hourly_rate (accrual E now s0) (now - start s0) in
  let apy := (calculate_earnings E 100000 (now - start s0)).2 in
  Io.get_metrics E c (Some h) t_start t_last_mint now run W
  = if admits E (now - last_mint s0) then
      match Io.mint_tokens E run wallet (earned s1) c 0%nat with
      | (_, printed, Returns _) =>
          (Returns (reply (settled now s1) hourly apy),
           {| user_sessions := <[wallet := settled now s1]> (user_sessions W);
              stdout := stdout W ++ printed |})
      | (n, printed, Raises e) =>
          match c n with
          | None =>
              (Returns (reply s1 hourly apy),
               {| user_sessions := <[wallet := s1]> (user_sessions W);
                  stdout := stdout W ++ printed ++ [PrintMintError e] |})
          | Some e' =>
              (Raises e',
               {| user_sessions := <[wallet := s1]> (user_sessions W);
                  stdout := stdout W ++ printed |})
          end
      end
    else
      (Returns (reply s1 hourly apy),
       {| user_sessions := <[wallet := s1]> (user_sessions W); stdout := stdout W |}).
Proof.
  intros Hh wallet s0 s1 hourly apy. unfold Io.get_metrics. rewrite Hh. simpl.
  fold wallet.
  assert (Hs0 : exists W1,
    match user_sessions W !! wallet with
    | Some _ => W
    | None => set_sessions (<[wallet := new_session t_start t_last_mint]> (user_sessions W)) W
    end = W1 /\ user_sessions W1 !! wallet = Some s0 /\ stdout W1 = stdout W
    /\ forall s, <[wallet := s]> (user_sessions W1) = <[wallet := s]> (user_sessions W)).
  { subst s0. unfold session_of. destruct (user_sessions W !! wallet) as [s|] eqn:Hl; simpl.
    - exists W. auto.
    - eexists. split; [reflexivity|]. simpl. rewrite lookup_insert_eq.
      repeat split; try reflexivity. intros s. apply insert_insert_eq. }
  destruct Hs0 as (W1 & -> & Hl & Hout & Hins). rewrite Hl.
  subst apy hourly s1. unfold accrual.
  destruct (calculate_earnings E 100000 (now - start s0)) as [earnings a].
  simpl.
  destruct (admits E (now - last_mint s0)).
  - unfold Io.settlement, Io.try_except, Io.bind, Io.ret, Io.say. simpl.
    destruct (Io.mint_tokens E run wallet (earned s0 + earnings) c 0%nat)
      as [[n printed] [r|e]].
    + unfold set_sessions, print; simpl. by rewrite Hins, Hout, app_nil_r.
    + destruct (c n) as [e'|]; unfold set_sessions, print; simpl;
        by rewrite Hins, Hout, ?app_nil_r.
  - unfold set_sessions, print, Io.ret; simpl. by rewrite Hins, Hout, app_nil_r.
Qed.

#[local] Transparent calculate_earnings admits hourly_rate Io.mint_tokens.

End IoFacts.

(** ** What [mint_tokens] lets through *)

Example holder_is_an_address :
  is_hex_address SampleIo.holder_key = true /\ lower SampleIo.holder = SampleIo.holder_key
  /\ is_hex_address "0xabc" = false.
Proof. repeat split. Qed.

(** [mint_tokens] never writes the line of the handler of [get_metrics]. *)
Lemma mint_tokens_lines E run wallet amount (c : Io.console) n :
  Forall not_mint_error (Io.mint_tokens E run wallet amount c n).1.2.
Proof.
  unfold Io.mint_tokens.
  destruct (negb (w3 E) || negb (admin_account E)); simpl; [constructor|].
  unfold Io.try_except, Io.bind, Io.lift, Io.mint_exchange, Io.bind, Io.say,
    Io.raise, Io.ret.
  destruct (Py.int _) as [t|e0]; simpl.
  - destruct (t <=? 0); simpl; [constructor|].
    destruct (Io.course_for wallet run) as [e1|h1 e1|h1 st b]; [| |destruct (st =? 1)];
      IoFacts.prints c; repeat constructor.
  - IoFacts.prints c; repeat constructor.
Qed.

(** Claim C10, as stated, fails.  A session started at time 0 is read at time
    10 with minting enabled, and the mint is refused.  With a closed
    standard output every [print] raises: the one of line 159 inside the
    [try], then the one of line 195 in the handler, whose [ValueError]
    leaves [mint_tokens]; the handler of [get_metrics] runs, its own [print]
    raises, and the call ends in that exception with the session not
    settled.  With an output on which only the [print] of line 195 fails,
    [mint_tokens] raises as well, the handler of [get_metrics] prints its
    line, and the call returns with the amount kept and [last_mint] as it
    was. *)
Lemma mint_tokens_can_raise :
  let amount := 0.15282534246575344%float in
  let broken := SampleIo.fails_at 1 (OSError "broken pipe") in
  let read c :=
    Io.get_metrics Sample.minting c (Some SampleIo.holder) 7 7 10 Sample.refused
      SampleIo.started in
  admits Sample.minting (10 - 0) = true
  /\ Io.mint_tokens Sample.minting Sample.refused SampleIo.holder_key amount
       SampleIo.closed 0%nat = (2%nat, [], Raises ValueError)
  /\ (read SampleIo.closed).1 = Raises ValueError
  /\ user_sessions (read SampleIo.closed).2 !! SampleIo.holder_key
     = Some {| start := 0; earned := amount; last_mint := 0 |}
  /\ Io.mint_tokens Sample.minting Sample.refused SampleIo.holder_key amount broken 0%nat
     = (2%nat, [PrintMinting amount SampleIo.holder_key], Raises (OSError "broken pipe"))
  /\ total_of (read broken).1 = Some amount
  /\ stdout (read broken).2
     = [PrintMinting amount SampleIo.holder_key; PrintMintError (OSError "broken pipe")]
  /\ user_sessions (read broken).2 !! SampleIo.holder_key
     = Some {| start := 0; earned := amount; last_mint := 0 |}.
Proof. repeat split; vm_compute; reflexivity. Qed.

(** Claim C10, amended.  [mint_tokens] lets no exception of the conversion
    or of the web3 exchange through: the only exception that leaves it is
    one raised by the [print] of its own handler (line 195); when every
    [print] succeeds it returns, the transaction hash if the exchange
    reached a receipt (confirmed or not) and [None] otherwise.  The handler
    around the mint call in [get_metrics] runs exactly when [mint_tokens]
    raises.  Whenever a settlement is admitted and [mint_tokens] returns,
    the call returns metrics and leaves the session with [last_mint = now]
    and [earned = 0], whether the mint succeeded or not; when [mint_tokens]
    raises, the session keeps its amount and its [last_mint]. *)
Theorem mint_tokens_raises_only_from_its_handler E (c : Io.console) run wallet amount n
    h t_start t_last_mint now W :
  (forall n' ls e,
      Io.mint_tokens E run wallet amount c n = (n', ls, Raises e) ->
      exists k, (n <= k)%nat /\ n' = S k /\ c k = Some e)
  /\ ((forall k, c k = None) ->
      (Io.mint_tokens E run wallet amount c n).2
      = Returns (mint_result E (Io.course_for wallet run) amount))
  /\ (truthy (Some h) = true ->
      let s0 := session_of (lower h) t_start t_last_mint W in
      let s1 := add_earned (accrual E now s0) s0 in
      let call := Io.get_metrics E c (Some h) t_start t_last_mint now run W in
      admits E (now - last_mint s0) = true ->
      match (Io.mint_tokens E run (lower h) (earned s1) c 0%nat).2 with
      | Returns _ =>
          (exists m, call.1 = Returns m /\ totalProfit m = 0%float)
          /\ user_sessions call.2 !! lower h
             = Some {| start := start s0; earned := 0; last_mint := now |}
          /\ (exists printed,
                stdout call.2 = stdout W ++ printed /\ Forall not_mint_error printed
                /\ printed = (Io.mint_tokens E run (lower h) (earned s1) c 0%nat).1.2)
      | Raises e =>
          user_sessions call.2 !! lower h = Some s1
          /\ (call.1 = Returns (reply s1 (hourly_rate (accrual E now s0) (now - start s0))
                                  (calculate_earnings E 100000 (now - start s0)).2)
              /\ (exists printed, stdout call.2 = stdout W ++ printed ++ [PrintMintError e])
              \/ exists e', call.1 = Raises e')
      end).
Proof.
  split; [|split].
  - intros n' ls e Hr.
    destruct (IoFacts.mint_tokens_raises E run wallet amount c n n' ls e Hr)
      as (k & ? & ? & ? & _).
    by exists k.
  - intros Hc.
    rewrite (proj2 (IoFacts.mint_tokens_written E run wallet amount c n Hc)).
    by destruct (mint_tokens_returns E (Io.course_for wallet run) wallet amount)
      as (printed & -> & _).
  - intros Hh s0 s1 call Hadm. subst call.
    rewrite (IoFacts.get_metrics_on_console E c h _ _ _ _ W Hh). fold s0. fold s1.
    rewrite Hadm.
    destruct (Io.mint_tokens E run (lower h) (earned s1) c 0%nat)
      as [[n1 printed] [r|e]] eqn:Hm; simpl.
    + split; [by eexists|]. split; [apply lookup_insert_eq|].
      exists printed. split; [reflexivity|]. split; [|reflexivity].
      pose proof (mint_tokens_lines E run (lower h) (earned s1) c 0%nat) as Hlines.
      by rewrite Hm in Hlines.
    + destruct (c n1) as [e'|]; simpl.
      * split; [apply lookup_insert_eq|]. right. by eexists.
      * split; [apply lookup_insert_eq|]. left. split; [reflexivity|by eexists].
Qed.

Lemma mint_tokens_raises_only_from_its_handler_witness :
  user_sessions
    (Io.get_metrics Sample.minting Io.quiet (Some SampleIo.holder) 7 7 10 Sample.timeout
       SampleIo.started).2 !! SampleIo.holder_key
  = Some {| start := 0; earned := 0; last_mint := 10 |}.
Proof.
  assert (Hadm : admits Sample.minting
                   (10 - last_mint (session_of (lower SampleIo.holder) 7 7 SampleIo.started))
                 = true) by (vm_compute; reflexivity).
  pose proof (proj2 (proj2 (mint_tokens_raises_only_from_its_handler Sample.minting Io.quiet
                Sample.timeout SampleIo.holder_key 1 0 SampleIo.holder 7 7 10
                SampleIo.started)) eq_refl Hadm) as H.
  cbv zeta in H.
  match type of H with
  | match ?t with _ => _ end =>
      assert (Hm : t = Returns (@None string)) by (vm_compute; reflexivity);
      rewrite Hm in H
  end.
  destruct H as (_ & Hs & _).
  exact Hs.
Defined.

(** On an output that cannot write the check mark of line 188 a confirmed
    mint prints no confirmation and [mint_tokens] returns [None]: the
    exception of that [print] is caught like any other. *)
Example unprintable_confirmation :
  let amount := 0.15282534246575344%float in
  Io.mint_tokens Sample.minting Sample.confirmed SampleIo.holder_key amount
    (SampleIo.fails_at 2 ValueError) 0%nat
  = (4%nat,
     [PrintMinting amount SampleIo.holder_key; PrintTx "0xfeed"; PrintError ValueError],
     Returns None).
Proof. vm_compute. reflexivity. Qed.

(** ** What a call lets through *)

(** Property X5.  [get_metrics] raises the HTTP error 400 exactly when the
    header is missing or empty.  With a wallet it returns metrics, whatever
    the configuration, the sessions, the clock and the web3 exchange are,
    unless two calls of [print] in a row fail, the one in the handler of
    [mint_tokens] (line 195) and then the one in its own handler (line 137),
    whose exception is the one it raises. *)
Theorem get_metrics_fails_only_without_wallet E (c : Io.console) x
    t_start t_last_mint now run W :
  match (Io.get_metrics E c x t_start t_last_mint now run W).1 with
  | Returns _ => truthy x = true
  | Raises e =>
      (truthy x = false /\ e = HTTPException 400 "Wallet header required")
      \/ (truthy x = true /\ exists k, c k <> None /\ c (S k) = Some e)
  end.
Proof.
  destruct (truthy x) eqn:Hx.
  - destruct x as [h|]; [|discriminate].
    rewrite (IoFacts.get_metrics_on_console E c h _ _ _ _ W Hx).
    destruct (admits E _); [|done].
    destruct (Io.mint_tokens _ _ _ _ _ _) as [[n1 printed] [r|e]] eqn:Hm; [done|].
    destruct (c n1) as [e'|] eqn:Hc; [|done]. simpl. right. split; [done|].
    destruct (IoFacts.mint_tokens_raises _ _ _ _ _ _ _ _ _ Hm) as (k & _ & -> & Hk & _).
    exists k. split; [congruence|done].
  - unfold Io.get_metrics. rewrite Hx. simpl. by left.
Qed.

(** Property X9.  [mint_tokens] reports a confirmation only for a confirmed
    transaction: the line "CONFIRMED - Block b" is written exactly when
    minting is enabled, the amount comes to at least one atomic unit, the
    exchange for the wallet ends in a receipt with status 1 for block [b],
    and the three calls of [print] up to that line succeed. *)
Theorem confirmation_is_printed_for_status_1 E (c : Io.console) run wallet amount n
    blockNumber :
  PrintConfirmed blockNumber ∈ (Io.mint_tokens E run wallet amount c n).1.2
  <-> minting_enabled E = true
      /\ (exists t, token_amount_of amount = Returns t /\ 0 < t)
      /\ (exists tx_hash, Io.course_for wallet run = Receipt tx_hash 1 blockNumber)
      /\ c n = None /\ c (S n) = None /\ c (S (S n)) = None.
Proof.
  unfold Io.mint_tokens, minting_enabled, token_amount_of.
  destruct (w3 E), (admin_account E); simpl;
    try (split; [by intros ?%elem_of_nil | by intros [? _]]).
  unfold Io.try_except, Io.bind, Io.lift, Io.mint_exchange, Io.bind, Io.say,
    Io.raise, Io.ret.
  destruct (Py.int _) as [t|e0]; simpl.
  - destruct (t <=? 0) eqn:Ht; simpl.
    { split; [by intros ?%elem_of_nil|].
      intros (_ & (t' & [= <-] & Hpos) & _). apply Z.leb_le in Ht. lia. }
    apply Z.leb_gt in Ht.
    destruct (Io.course_for wallet run) as [e1|h1 e1|h1 st b];
      [| |destruct (st =? 1) eqn:Hst; [apply Z.eqb_eq in Hst; subst st|]].
    all: IoFacts.prints c.
    all: split;
      [ intros Hin; in_list Hin;
        try (injection Hin as <-; repeat split; try done; by eauto)
      | intros (_ & _ & (h' & Hrun) & Hq0 & Hq1 & Hq2); try discriminate;
        try congruence ].
    all: try (injection Hrun as ? ?; subst; simpl; rewrite !elem_of_cons; by auto).
    all: try (injection Hrun as ? ? ?; subst; simpl in Hst; discriminate).
  - split.
    + IoFacts.prints c; intros Hin; in_list Hin.
    + intros (_ & (t' & [=] & _) & _).
Qed.

Lemma confirmation_is_printed_for_status_1_witness :
  PrintConfirmed 17
  ∈ (Io.mint_tokens Sample.minting Sample.confirmed SampleIo.holder_key
       0.15282534246575344 Io.quiet 0%nat).1.2.
Proof.
  apply (proj2 (confirmation_is_printed_for_status_1 Sample.minting Io.quiet
                  Sample.confirmed SampleIo.holder_key 0.15282534246575344 0 17)).
  split; [reflexivity|]. split.
  - exists 152825342465753440. split; [vm_compute; reflexivity | reflexivity].
  - split; [by exists "0xfeed"%string | done].
Defined.

Lemma mint_tokens_returns_when_written E run wallet amount (c : Io.console) n :
  (forall k, c k = None) ->
  exists n' printed r, Io.mint_tokens E run wallet amount c n = (n', printed, Returns r).
Proof.
  intros Hc.
  pose proof (proj2 (IoFacts.mint_tokens_written E run wallet amount c n Hc)) as Hr.
  destruct (mint_tokens_returns E (Io.course_for wallet run) wallet amount)
    as (printed & Hold & _).
  rewrite Hold in Hr. simpl in Hr.
  destruct (Io.mint_tokens E run wallet amount c n) as [[n' ls] r]. simpl in Hr. subst r.
  by eexists _, _, _.
Qed.

(** Property X11.  On an output that writes every line, what the web3
    exchange does never reaches the session or the reply: two calls of
    [get_metrics] that differ in the course of the exchange only give the
    same reply and leave the same sessions. *)
Theorem chain_outcome_stays_out_of_the_session E (c : Io.console) x
    t_start t_last_mint now run run' W :
  (forall k, c k = None) ->
  (Io.get_metrics E c x t_start t_last_mint now run W).1
  = (Io.get_metrics E c x t_start t_last_mint now run' W).1
  /\ user_sessions (Io.get_metrics E c x t_start t_last_mint now run W).2
     = user_sessions (Io.get_metrics E c x t_start t_last_mint now run' W).2.
Proof.
  intros Hc. destruct (truthy x) eqn:Hx.
  - destruct x as [h|]; [|discriminate].
    rewrite !(IoFacts.get_metrics_on_console E c h _ _ _ _ W Hx).
    destruct (admits E _); [|done].
    destruct (mint_tokens_returns_when_written E run (lower h)
                (earned (add_earned (accrual E now (session_of (lower h) t_start t_last_mint W))
                           (session_of (lower h) t_start t_last_mint W))) c 0 Hc)
      as (n1 & p1 & r1 & ->).
    destruct (mint_tokens_returns_when_written E run' (lower h)
                (earned (add_earned (accrual E now (session_of (lower h) t_start t_last_mint W))
                           (session_of (lower h) t_start t_last_mint W))) c 0 Hc)
      as (n2 & p2 & r2 & ->).
    done.
  - unfold Io.get_metrics. by rewrite Hx.
Qed.

Lemma chain_outcome_stays_out_of_the_session_witness :
  user_sessions
    (Io.get_metrics Sample.minting Io.quiet (Some SampleIo.holder) 7 7 10 Sample.confirmed
       SampleIo.started).2
  = user_sessions
      (Io.get_metrics Sample.minting Io.quiet (Some SampleIo.holder) 7 7 10 Sample.timeout
         SampleIo.started).2.
Proof.
  exact (proj2 (chain_outcome_stays_out_of_the_session Sample.minting Io.quiet
                  (Some SampleIo.holder) 7 7 10 Sample.confirmed Sample.timeout
                  SampleIo.started (fun _ => eq_refl))).
Defined.

(** With a console that writes every line [get_metrics] is the function of
    the first part of the file, on the course the exchange can take for the
    wallet. *)
Lemma get_metrics_written E (c : Io.console) x t_start t_last_mint now run W :
  (forall k, c k = None) ->
  Io.get_metrics E c x t_start t_last_mint now run W
  = get_metrics E x t_start t_last_mint now
      (Io.course_for (lower (default ""%string x)) run) W.
Proof.
  intros Hc. destruct (truthy x) eqn:Hx.
  - destruct x as [h|]; [|discriminate]. simpl default.
    rewrite (IoFacts.get_metrics_on_console E c h _ _ _ _ W Hx).
    rewrite (get_metrics_exact E h _ _ _ _ W Hx).
    unfold printed_by.
    destruct (admits E _); [|by rewrite app_nil_r].
    pose proof (IoFacts.mint_tokens_written E run (lower h)
                  (earned (add_earned (accrual E now (session_of (lower h) t_start t_last_mint W))
                             (session_of (lower h) t_start t_last_mint W))) c 0 Hc)
      as [Hls Hr].
    destruct (mint_tokens_returns E (Io.course_for (lower h) run) (lower h)
                (earned (add_earned (accrual E now (session_of (lower h) t_start t_last_mint W))
                           (session_of (lower h) t_start t_last_mint W))))
      as (printed & Hold & _).
    rewrite Hold in Hls, Hr |- *. simpl in Hls, Hr.
    destruct (Io.mint_tokens _ _ _ _ _ _) as [[n1 p1] r1]. simpl in Hls, Hr. by subst.
  - unfold Io.get_metrics, get_metrics. by rewrite Hx.
Qed.

(** ** Case-insensitive wallets *)

(** An empty header is no wallet: [start_engine] accepts the empty address
    and stores a session for it, which no call of [get_metrics] reaches,
    since an empty header is refused with the error 400. *)
Remark empty_header_is_the_missing_wallet :
  user_sessions (start_engine (Sample.request "") 0 0 Sample.fresh).2 !! ""%string
  = Some (new_session 0 0)
  /\ (get_metrics Sample.disabled (Some ""%string) 1 1 1 Sample.confirmed
        (start_engine (Sample.request "") 0 0 Sample.fresh).2).1
     = Raises (HTTPException 400 "Wallet header required").
Proof. repeat split. Qed.

Lemma get_metrics_sessions E (c : Io.console) h t_start t_last_mint now run W :
  truthy (Some h) = true ->
  let s0 := session_of (lower h) t_start t_last_mint W in
  let s1 := add_earned (accrual E now s0) s0 in
  let call := Io.get_metrics E c (Some h) t_start t_last_mint now run W in
  exists s2,
    user_sessions call.2 = <[lower h := s2]> (user_sessions W)
    /\ (s2 = s1 \/ s2 = settled now s1)
    /\ match call.1 with
       | Returns m => totalProfit m = earned s2
       | Raises e => exists k, c k = Some e
       end.
Proof.
  intros Hh s0 s1 call. subst call.
  rewrite (IoFacts.get_metrics_on_console E c h _ _ _ _ W Hh). fold s0. fold s1.
  destruct (admits E _); [|exists s1; simpl; auto].
  destruct (Io.mint_tokens _ _ _ _ _ _) as [[n1 printed] [r|e]];
    [exists (settled now s1); simpl; auto|].
  destruct (c n1) as [e'|] eqn:Hc; exists s1; simpl; eauto.
Qed.

(** Claim C8.  Wallet addresses are canonicalized case-insensitively: for
    every address (a non-empty string of ASCII characters, as hexadecimal
    addresses are), after [start_engine] with the address a call of
    [get_metrics] with any case variant of it as the header works on the
    session that the start created, under the one lower-case key, and
    creates no other: the accrual is counted from the start's clock
    reading, and the total replied is what that session holds.  This is so
    for every console; a call that does not return metrics raises the
    exception of a [print]. *)
Theorem case_variants_share_the_session E (c : Io.console) (req : EngineRequest)
    (b : string) t_start t_last_mint t_start' t_last_mint' now run W :
  is_ascii (walletAddress req) = true ->
  walletAddress req <> ""%string ->
  case_variant (walletAddress req) b = true ->
  let W1 := (start_engine req t_start t_last_mint W).2 in
  let s0 := new_session t_start t_last_mint in
  let s1 := add_earned (accrual E now s0) s0 in
  let call := Io.get_metrics E c (Some b) t_start' t_last_mint' now run W1 in
  user_sessions W1 !! lower (walletAddress req) = Some s0
  /\ lower b = lower (walletAddress req)
  /\ dom (user_sessions call.2) = dom (user_sessions W1)
  /\ exists s2,
      user_sessions call.2 !! lower (walletAddress req) = Some s2
      /\ (s2 = s1 \/ s2 = settled now s1)
      /\ start s2 = t_start
      /\ match call.1 with
         | Returns m => totalProfit m = earned s2
         | Raises e => exists k, c k = Some e
         end
      /\ ((forall k, c k = None) -> exists m, call.1 = Returns m).
Proof.
  intros _ Hne Hcv W1 s0 s1 call.
  assert (Hkey : lower b = lower (walletAddress req))
    by (symmetry; by apply case_variant_lower).
  assert (Hl : user_sessions W1 !! lower (walletAddress req) = Some s0)
    by apply lookup_insert_eq.
  split; [exact Hl|]. split; [exact Hkey|].
  assert (Ht : truthy (Some b) = true).
  { rewrite <- (case_variant_truthy _ _ Hcv). by destruct (walletAddress req). }
  destruct (get_metrics_sessions E c b t_start' t_last_mint' now run W1 Ht)
    as (s2 & Hmap & Hs2 & Hout).
  fold call in Hmap, Hout.
  unfold session_of in Hs2. rewrite Hkey, Hl in Hs2. simpl in Hs2.
  rewrite Hkey in Hmap.
  split; [rewrite Hmap; apply dom_insert_lookup_L; eauto|].
  exists s2. split; [rewrite Hmap; apply lookup_insert_eq|].
  split; [exact Hs2|]. split; [by destruct Hs2 as [-> | ->]|]. split; [exact Hout|].
  intros Hc. destruct (call.1) as [m|e]; [by eexists|].
  destruct Hout as [k Hk]. rewrite Hc in Hk. discriminate.
Qed.

Lemma case_variants_share_the_session_witness :
  dom (user_sessions
         (Io.get_metrics Sample.minting Io.quiet (Some SampleIo.holder_key) 7 7 10
            Sample.confirmed SampleIo.started).2)
  = dom (user_sessions SampleIo.started)
  /\ exists m,
       (Io.get_metrics Sample.minting Io.quiet (Some SampleIo.holder_key) 7 7 10
          Sample.confirmed SampleIo.started).1 = Returns m.
Proof.
  destruct (case_variants_share_the_session Sample.minting Io.quiet
              (Sample.request SampleIo.holder) SampleIo.holder_key 0 0 7 7 10
              Sample.confirmed Sample.fresh eq_refl ltac:(discriminate) eq_refl)
    as (_ & _ & Hdom & s2 & _ & _ & _ & _ & Hret).
  split; [exact Hdom | exact (Hret (fun _ => eq_refl))].
Defined.

(** ** Canonical keys, whatever is printed *)

Lemma handle_on_canonical E rc W : canonical_keys W -> canonical_keys (handle_on E rc W).
Proof.
  intros HW. destruct rc as [[req t1 t2|x t1 t2 now run|req] c]; unfold handle_on; simpl.
  - by apply start_engine_canonical.
  - destruct (truthy x) eqn:Hx.
    + destruct x as [h|]; [|discriminate].
      destruct (get_metrics_sessions E c h t1 t2 now run W Hx) as (s2 & Hmap & _).
      intros w. simpl in Hmap. rewrite Hmap. rewrite lookup_insert. case_decide as Hw.
      * intros _. subst w. apply lower_idempotent.
      * apply HW.
    + unfold Io.get_metrics. by rewrite Hx.
  - by apply stop_engine_canonical.
Qed.

(** Property X1.  Whatever requests for ASCII wallets are served, in
    whatever order and whatever their calls of [print] do, every key of
    [user_sessions] stays in lower case, and so no two keys are case
    variants of each other: no wallet has two sessions under two spellings
    of its address that differ in case. *)
Theorem serve_keeps_keys_canonical E (rs : list (request * Io.console)) (W : world) :
  Forall (fun rc => ascii_request rc.1) rs ->
  canonical_keys W ->
  canonical_keys (serve_on E rs W)
  /\ forall w1 w2 : string,
       is_Some (user_sessions (serve_on E rs W) !! w1) ->
       is_Some (user_sessions (serve_on E rs W) !! w2) ->
       case_variant w1 w2 = true -> w1 = w2.
Proof.
  intros _ HW.
  assert (Hcan : canonical_keys (serve_on E rs W)).
  { unfold serve_on. revert W HW. induction rs as [|rc rs IH]; intros W HW; [done|].
    simpl. apply IH. by apply handle_on_canonical. }
  split; [exact Hcan|].
  intros w1 w2 H1 H2 Hcv.
  rewrite <- (Hcan w1 H1), <- (Hcan w2 H2). by apply case_variant_lower.
Qed.

Lemma serve_keeps_keys_canonical_witness :
  canonical_keys
    (serve_on Sample.minting
       [(PostStart (Sample.request "0xABC") 0 0, Io.quiet);
        (GetMetrics (Some "0xAbC"%string) 7 7 10 Sample.confirmed, SampleIo.closed);
        (GetMetrics (Some "0xDEF"%string) 11 11 12 Sample.timeout, Io.quiet)]
       Sample.fresh).
Proof.
  apply (serve_keeps_keys_canonical Sample.minting).
  - repeat constructor.
  - intros w [s Hs]. vm_compute in Hs. discriminate.
Defined.

(** ** The accesses of a call *)

Module FineFacts.
Import Fine.

(** No step removes a key or an object. *)
Lemma step_grows E i t σ :
  (forall w, is_Some (sessions σ !! w) -> is_Some (sessions (step E i t σ).2 !! w))
  /\ (length (objects σ) <= length (objects (step E i t σ).2))%nat.
Proof.
  destruct t; simpl; repeat case_match; simpl;
    rewrite ?length_alter, ?length_app; simpl; (split; [|lia]); auto.
  intros w' Hw'. destruct (decide (w = w')) as [->|Hne].
  - rewrite lookup_insert_eq. eauto.
  - by rewrite lookup_insert_ne.
Qed.

Lemma relies_mono σ σ' t :
  (forall w, is_Some (sessions σ !! w) -> is_Some (sessions σ' !! w)) ->
  (length (objects σ) <= length (objects σ'))%nat ->
  relies σ t -> relies σ' t.
Proof.
  intros Hk Hl. destruct t; simpl; auto; lia.
Qed.

Lemma step_live E i t σ : live σ -> live (step E i t σ).2.
Proof.
  intros Hlive. destruct t; simpl; repeat case_match; simpl; try exact Hlive;
    try (intros w' l' Hw'; simpl in *; rewrite length_alter; by eapply Hlive).
  intros w' l' Hw'. simpl in *. rewrite length_app. simpl.
  destruct (decide (w = w')) as [->|Hne].
  - rewrite lookup_insert_eq in Hw'. injection Hw' as <-. lia.
  - rewrite lookup_insert_ne in Hw' by done. apply Hlive in Hw'. lia.
Qed.

Lemma step_relies E i t σ :
  live σ -> relies σ t -> relies (step E i t σ).2 (step E i t σ).1.
Proof.
  intros Hlive Ht. destruct t; simpl in *; repeat case_match; simpl in *;
    rewrite ?length_alter; try done; try lia; eauto.
  rewrite lookup_insert_eq. eauto.
Qed.

Lemma relies_proceeds E i t σ : relies σ t -> proceeds E i t σ.
Proof.
  intros Ht. destruct t; simpl in *; repeat case_match; simpl; try done; eauto;
    match goal with
    | H : objects _ !! _ = None |- _ => apply lookup_ge_None in H; lia
    end.
Qed.

Lemma sys_step_stays_sound E n i S : sound S -> sound (sys_step E n i S).
Proof.
  intros [Hlive Hcalls]. unfold sys_step.
  destruct (calls S !! n) as [t|] eqn:Hn; [|by split].
  pose proof (step_grows E i t (shared S)) as [Hk Hl].
  pose proof (step_live E i t (shared S) Hlive) as Hlive'.
  pose proof (step_relies E i t (shared S) Hlive (Forall_lookup_1 _ _ _ _ Hcalls Hn)) as Ht.
  destruct (step E i t (shared S)) as [t' σ']. simpl in *.
  split; [exact Hlive'|].
  apply Forall_insert; [|exact Ht].
  eapply Forall_impl; [exact Hcalls|]. intros u. by apply relies_mono.
Qed.

Lemma run_stays_sound E schedule S : sound S -> sound (run E schedule S).
Proof.
  unfold run. revert S. induction schedule as [|[n i] schedule IH]; intros S HS; [done|].
  simpl. apply IH. by apply sys_step_stays_sound.
Qed.

Lemma sys_step_keeps_keys E n i S w :
  is_Some (sessions (shared S) !! w) -> is_Some (sessions (shared (sys_step E n i S)) !! w).
Proof.
  intros Hw. unfold sys_step. destruct (calls S !! n) as [t|]; [|done].
  pose proof (step_grows E i t (shared S)) as [Hk _].
  destruct (step E i t (shared S)) as [t' σ']. simpl in *. by apply Hk.
Qed.

Lemma run_keeps_keys E schedule S w :
  is_Some (sessions (shared S) !! w) -> is_Some (sessions (shared (run E schedule S)) !! w).
Proof.
  unfold run. revert S. induction schedule as [|[n i] schedule IH]; intros S HS; [done|].
  simpl. apply IH. by apply sys_step_keeps_keys.
Qed.


(** *** A call alone is the handler *)

Lemma world_write (g : session -> session) w l s σ :
  well_formed σ -> sessions σ !! w = Some l -> objects σ !! l = Some s ->
  user_sessions (world_of (write g l σ)) = <[w := g s]> (user_sessions (world_of σ)).
Proof.
  intros [_ Hinj] Hw Hl. apply map_eq. intros k. simpl.
  rewrite lookup_omap. destruct (decide (k = w)) as [->|Hne].
  - rewrite lookup_insert_eq, Hw. simpl. rewrite list_lookup_alter, Hl.
    by rewrite decide_True.
  - rewrite lookup_insert_ne by done. rewrite lookup_omap.
    destruct (sessions σ !! k) as [l'|] eqn:Hk; [|done]. simpl.
    rewrite list_lookup_alter, decide_False; [done|].
    intros ->. apply Hne. by eapply Hinj.
Qed.

Lemma well_formed_write g l σ : well_formed σ -> well_formed (write g l σ).
Proof. intros [Hlive Hinj]. split; simpl; [|done]. intros. rewrite length_alter. eauto. Qed.

Lemma world_store_new w s σ :
  well_formed σ ->
  user_sessions (world_of (store_new w s σ)) = <[w := s]> (user_sessions (world_of σ)).
Proof.
  intros [Hlive _]. apply map_eq. intros k. simpl.
  rewrite lookup_omap. destruct (decide (k = w)) as [->|Hne].
  - rewrite !lookup_insert_eq. simpl.
    rewrite lookup_app_r by lia. by rewrite Nat.sub_diag.
  - rewrite !lookup_insert_ne by done. rewrite lookup_omap.
    destruct (sessions σ !! k) as [l'|] eqn:Hk; [|done]. simpl.
    apply Hlive in Hk. by rewrite lookup_app_l.
Qed.

Lemma well_formed_store_new w s σ : well_formed σ -> well_formed (store_new w s σ).
Proof.
  intros [Hlive Hinj]. split; simpl.
  - intros w' l'. rewrite length_app. simpl. destruct (decide (w = w')) as [->|Hne].
    + rewrite lookup_insert_eq. intros [= <-]. lia.
    + rewrite lookup_insert_ne by done. intros Hw'. apply Hlive in Hw'. lia.
  - intros w1 w2 l'.
    destruct (decide (w1 = w)) as [->|Hne1], (decide (w2 = w)) as [->|Hne2];
      rewrite ?lookup_insert_eq, ?lookup_insert_ne by done; try done.
    + intros [= <-] Hw2. apply Hlive in Hw2. lia.
    + intros Hw1 [= <-]. apply Hlive in Hw1. lia.
    + apply Hinj.
Qed.

Lemma iter_finished E c ts tl now run r σ n :
  Nat.iter n (alone_step E c ts tl now run) (Finished r, σ) = (Finished r, σ).
Proof. induction n as [|n IH]; [done|]. simpl. by rewrite IH. Qed.

Lemma iter_step {A} (f : A -> A) n a a' b :
  f a = a' -> Nat.iter n f a' = b -> Nat.iter (S n) f a = b.
Proof. intros <- <-. apply Nat.iter_succ_r. Qed.

Lemma read_write g l s σ :
  objects σ !! l = Some s -> objects (write g l σ) !! l = Some (g s).
Proof. intros Hl. simpl. by rewrite list_lookup_alter, decide_True, Hl. Qed.

Lemma world_eq (W W' : world) :
  user_sessions W = user_sessions W' -> stdout W = stdout W' -> W = W'.
Proof. destruct W, W'. simpl. by intros -> ->. Qed.

Lemma world_printed ls σ : user_sessions (world_of (printed ls σ)) = user_sessions (world_of σ).
Proof. done. Qed.

Ltac access_by tac :=
  eapply iter_step; [unfold alone_step; cbn [fst snd step input_at clock chain console
    wallet session_ now running since_mint earnings apy_ frame_of]; tac; reflexivity|].
Ltac access := access_by idtac.

(** Lines 121 to 128. *)
Lemma alone_accrues E c ts tl now run w l s0 σ n b :
  sessions σ !! w = Some l -> objects σ !! l = Some s0 ->
  Nat.iter n (alone_step E c ts tl now run)
    (if admits E (now - last_mint s0)
     then AtMintArg (frame_of E w l now s0) else AtReplyTotal (frame_of E w l now s0),
     write (set_earned (earned s0 + accrual E now s0)) l σ) = b ->
  Nat.iter (6 + n) (alone_step E c ts tl now run) (AtBind w, σ) = b.
Proof.
  intros Hw Hl Hb.
  assert (Hce : calculate_earnings E 100000 (now - start s0)
                = (accrual E now s0, (calculate_earnings E 100000 (now - start s0)).2))
    by (unfold accrual; by destruct (calculate_earnings _ _ _)).
  access_by ltac:(rewrite Hw). access. access_by ltac:(rewrite Hl).
  access_by ltac:(rewrite Hl, Hce).
  access_by ltac:(rewrite Hl). access. exact Hb.
Qed.

(** Lines 139 to 148. *)
Lemma alone_replies E c ts tl now run f s σ n :
  objects σ !! session_ f = Some s ->
  Nat.iter (2 + n) (alone_step E c ts tl now run) (AtReplyTotal f, σ)
  = (Finished (Returns (reply s (hourly_rate (earnings f) (running f)) (apy_ f))), σ).
Proof.
  intros Hl. access_by ltac:(rewrite Hl). access_by ltac:(rewrite Hl).
  apply iter_finished.
Qed.

(** The accesses of a call from line 121 on, when nothing runs in
    between, as a world transformer. *)
Lemma alone_from_bind E c ts tl now run w l s0 σ n :
  well_formed σ -> sessions σ !! w = Some l -> objects σ !! l = Some s0 ->
  let s1 := add_earned (accrual E now s0) s0 in
  let hourly := hourly_rate (accrual E now s0) (now - start s0) in
  let apy := (calculate_earnings E 100000 (now - start s0)).2 in
  let W := world_of σ in
  let X :=
    if admits E (now - last_mint s0) then
      match Io.mint_tokens E run w (earned s1) c 0%nat with
      | (_, printed, Returns _) =>
          (Returns (reply (settled now s1) hourly apy),
           {| user_sessions := <[w := settled now s1]> (user_sessions W);
              stdout := stdout W ++ printed |})
      | (k, printed, Raises e) =>
          match c k with
          | None =>
              (Returns (reply s1 hourly apy),
               {| user_sessions := <[w := s1]> (user_sessions W);
                  stdout := stdout W ++ printed ++ [PrintMintError e] |})
          | Some e' =>
              (Raises e',
               {| user_sessions := <[w := s1]> (user_sessions W);
                  stdout := stdout W ++ printed |})
          end
      end
    else
      (Returns (reply s1 hourly apy),
       {| user_sessions := <[w := s1]> (user_sessions W); stdout := stdout W |}) in
  exists σ',
    Nat.iter (12 + n) (alone_step E c ts tl now run) (AtBind w, σ) = (Finished X.1, σ')
    /\ world_of σ' = X.2.
Proof.
  intros Hwf Hw Hl s1 hourly apy W X.
  pose proof (read_write (set_earned (earned s0 + accrual E now s0)) l s0 σ Hl) as Hl1.
  pose proof (world_write (set_earned (earned s0 + accrual E now s0)) w l s0 σ Hwf Hw Hl)
    as HW1.
  pose proof (well_formed_write (set_earned (earned s0 + accrual E now s0)) l σ Hwf) as Hwf1.
  change (set_earned (earned s0 + accrual E now s0) s0) with s1 in Hl1, HW1.
  set (σ1 := write (set_earned (earned s0 + accrual E now s0)) l σ) in *.
  assert (Hw1 : sessions σ1 !! w = Some l) by exact Hw.
  subst X. destruct (admits E (now - last_mint s0)) eqn:Hadm.
  - destruct (Io.mint_tokens E run w (earned s1) c 0%nat) as [[k ls] [r|e]] eqn:Hm.
    + pose proof (read_write (set_last_mint now) l s1 (printed ls σ1) Hl1) as Hl3.
      pose proof (world_write (set_last_mint now) w l s1 (printed ls σ1) Hwf1 Hw1 Hl1) as HW3.
      pose proof (well_formed_write (set_last_mint now) l (printed ls σ1) Hwf1) as Hwf3.
      set (σ3 := write (set_last_mint now) l (printed ls σ1)) in *.
      pose proof (read_write (set_earned 0) l _ σ3 Hl3) as Hl4.
      pose proof (world_write (set_earned 0) w l _ σ3 Hwf3 Hw1 Hl3) as HW4.
      exists (write (set_earned 0) l σ3). split.
      * apply (alone_accrues E c ts tl now run w l s0 σ (6 + n) _ Hw Hl).
        rewrite Hadm. fold σ1.
        access_by ltac:(rewrite Hl1).
        access_by ltac:(fold s1; rewrite Hm). access. fold σ3. access.
        etransitivity;
          [exact (alone_replies E c ts tl now run (frame_of E w l now s0) _ _ n Hl4)|].
        reflexivity.
      * apply world_eq; [|reflexivity]. simpl snd. cbn [user_sessions].
        rewrite HW4, HW3, world_printed, HW1, !insert_insert_eq.
        reflexivity.
    + destruct (c k) as [e'|] eqn:Hck.
      * exists (printed ls σ1). split.
        -- apply (alone_accrues E c ts tl now run w l s0 σ (6 + n) _ Hw Hl).
           rewrite Hadm. fold σ1.
           access_by ltac:(rewrite Hl1).
           access_by ltac:(fold s1; rewrite Hm). access_by ltac:(rewrite Hck).
           apply iter_finished.
        -- apply world_eq; [|reflexivity]. simpl snd. cbn [user_sessions].
           by rewrite world_printed, HW1.
      * exists (printed [PrintMintError e] (printed ls σ1)). split.
        -- apply (alone_accrues E c ts tl now run w l s0 σ (6 + n) _ Hw Hl).
           rewrite Hadm. fold σ1.
           access_by ltac:(rewrite Hl1).
           access_by ltac:(fold s1; rewrite Hm). access_by ltac:(rewrite Hck).
           etransitivity;
             [exact (alone_replies E c ts tl now run (frame_of E w l now s0) s1
                       (printed [PrintMintError e] (printed ls σ1)) (S n) Hl1)|].
           reflexivity.
        -- apply world_eq; simpl snd.
           ++ cbn [user_sessions]. by rewrite !world_printed, HW1.
           ++ simpl. by rewrite <- app_assoc.
  - exists σ1. split.
    + apply (alone_accrues E c ts tl now run w l s0 σ (6 + n) _ Hw Hl).
      rewrite Hadm. fold σ1.
      etransitivity;
        [exact (alone_replies E c ts tl now run (frame_of E w l now s0) _ _ (4 + n) Hl1)|].
      reflexivity.
    + apply world_eq; [|reflexivity]. simpl snd. cbn [user_sessions]. exact HW1.
Qed.

(** A call that runs with nothing in between is the handler: it ends with
    the handler's outcome, and it leaves [user_sessions] and the standard
    output as the handler does. *)
Lemma alone_is_the_handler E c x ts tl now run σ :
  well_formed σ ->
  (alone E c x ts tl now run σ).1
  = Finished (Io.get_metrics E c x ts tl now run (world_of σ)).1
  /\ world_of (alone E c x ts tl now run σ).2
     = (Io.get_metrics E c x ts tl now run (world_of σ)).2.
Proof.
  intros Hwf. unfold alone. destruct (truthy x) eqn:Hx.
  - destruct x as [h|]; [|discriminate].
    rewrite (IoFacts.get_metrics_on_console E c h ts tl now run (world_of σ) Hx).
    cbv zeta. set (w := lower h).
    destruct (sessions σ !! w) as [l|] eqn:Hw.
    + destruct (lookup_lt_is_Some_2 (objects σ) l (proj1 Hwf w l Hw)) as [s0 Hl].
      assert (Hs0 : session_of w ts tl (world_of σ) = s0).
      { unfold session_of. simpl. by rewrite lookup_omap, Hw; simpl; rewrite Hl. }
      rewrite Hs0.
      destruct (alone_from_bind E c ts tl now run w l s0 σ 3 Hwf Hw Hl)
        as (σ' & Hiter & HW). cbv zeta in Hiter, HW.
      match type of HW with _ = ?rhs.2 => set (X := rhs) in * end.
      assert (Hrun : Nat.iter 17 (alone_step E c ts tl now run) (Called (Some h), σ)
                     = (Finished X.1, σ')).
      { eapply (iter_step _ _ _ (AtCheck w, σ));
          [unfold alone_step; cbn [fst snd step]; rewrite Hx; reflexivity|].
        access_by ltac:(rewrite Hw). exact Hiter. }
      rewrite Hrun. split; [reflexivity|exact HW].
    + assert (Hs0 : session_of w ts tl (world_of σ) = new_session ts tl).
      { unfold session_of. simpl. by rewrite lookup_omap, Hw. }
      rewrite Hs0.
      assert (Hw1 : sessions (store_new w (new_session ts tl) σ) !! w
                    = Some (length (objects σ))) by apply lookup_insert_eq.
      assert (Hl1 : objects (store_new w (new_session ts tl) σ) !! length (objects σ)
                    = Some (new_session ts tl)).
      { simpl. rewrite lookup_app_r by lia. by rewrite Nat.sub_diag. }
      destruct (alone_from_bind E c ts tl now run w _ _ _ 0
                  (well_formed_store_new w (new_session ts tl) σ Hwf) Hw1 Hl1)
        as (σ' & Hiter & HW). cbv zeta in Hiter, HW.
      rewrite world_store_new in HW, Hiter by done.
      rewrite !insert_insert_eq in HW, Hiter.
      match type of HW with _ = ?rhs.2 => set (X := rhs) in * end.
      assert (Hrun : Nat.iter 17 (alone_step E c ts tl now run) (Called (Some h), σ)
                     = (Finished X.1, σ')).
      { eapply (iter_step _ _ _ (AtCheck w, σ));
          [unfold alone_step; cbn [fst snd step]; rewrite Hx; reflexivity|].
        access_by ltac:(rewrite Hw). access. access. access. exact Hiter. }
      rewrite Hrun. split; [reflexivity|exact HW].
  - unfold Io.get_metrics. rewrite Hx. simpl negb. cbv iota.
    assert (Hrun : Nat.iter 17 (alone_step E c ts tl now run) (Called x, σ)
                   = (Finished (Raises (HTTPException 400 "Wallet header required")), σ)).
    { eapply (iter_step _ _ _ (Finished _, σ));
        [unfold alone_step; cbn [fst snd step]; rewrite Hx; reflexivity|].
      apply iter_finished. }
    rewrite Hrun. split; reflexivity.
Qed.

(** *** The other calls *)

(** The steps of the other calls leave a call where it stands, and they
    free no object. *)
Lemma others_keep E schedule S n t :
  Forall (fun ni : nat * input => ni.1 <> n) schedule ->
  calls S !! n = Some t ->
  calls (run E schedule S) !! n = Some t
  /\ (length (objects (shared S)) <= length (objects (shared (run E schedule S))))%nat.
Proof.
  unfold run. revert S. induction schedule as [|[m i] schedule IH]; intros S Hs Hn.
  - by split.
  - apply Forall_cons in Hs as [Hm Hs]. simpl in Hm. simpl.
    assert (Hstep : calls (sys_step E m i S) !! n = Some t
                    /\ (length (objects (shared S))
                        <= length (objects (shared (sys_step E m i S))))%nat).
    { unfold sys_step. destruct (calls S !! m) as [u|]; [|by split].
      pose proof (step_grows E i u (shared S)) as [_ Hlen].
      destruct (step E i u (shared S)) as [u' σ']. simpl in *.
      split; [|exact Hlen]. by rewrite list_lookup_insert_ne. }
    destruct Hstep as [Hn' Hlen].
    destruct (IH _ Hs Hn') as [Hn'' Hlen'']. split; [exact Hn''|lia].
Qed.

(** The step of the call number [n]. *)
Lemma sys_step_of E n i S t :
  calls S !! n = Some t ->
  calls (sys_step E n i S) !! n = Some (step E i t (shared S)).1
  /\ shared (sys_step E n i S) = (step E i t (shared S)).2.
Proof.
  intros Hn. unfold sys_step. rewrite Hn.
  destruct (step E i t (shared S)) as [t' σ']. simpl. split; [|done].
  apply list_lookup_insert_eq. by eapply lookup_lt_Some.
Qed.

End FineFacts.

(** ** Settlement while other calls run *)

(** Claim C2, as stated, fails.  The wallet was started at time 0.  Call 0
    reads the clock at 10 and calls [mint_tokens] with the amount
    A = 0.1528...; while that call is in flight, call 1 reads the clock at
    11 and adds its accrual to the same session, which then holds
    0.3209....  The mint of call 0 is confirmed in block 17, and call 0
    executes lines 134 and 135: the session holds 0, where the subtraction
    of A would have left 0.1681.... *)
Lemma confirmed_settlement_overwrites :
  let S1 := Fine.run Sample.minting (Flight.in_flight ++ Flight.confirmed) Flight.two_calls in
  let S2 := Fine.run Sample.minting Flight.zeroed S1 in
  is_hex_address SampleIo.holder_key = true
  /\ Fine.out (Fine.shared S1)
     = [PrintMinting 0.15282534246575344 SampleIo.holder_key; PrintTx "0xfeed";
        PrintConfirmed 17; PrintEtherscan "0xfeed"]
  /\ Fine.objects (Fine.shared S1)
     = [{| start := 0; earned := 0.32093321917808226; last_mint := 10 |}]
  /\ (0.32093321917808226 - 0.15282534246575344)%float = 0.16810787671232882%float
  /\ Fine.sessions (Fine.shared S2) !! SampleIo.holder_key = Some 0%nat
  /\ Fine.objects (Fine.shared S2) = [{| start := 0; earned := 0; last_mint := 10 |}].
Proof. repeat split; vm_compute; reflexivity. Qed.

(** Claim C2, amended.  For every wallet, when a settlement of amount A is
    confirmed (minting is enabled, A converts to a positive number of
    atomic units, [mint_tokens] gets a receipt with status 1 and prints
    its four lines), the call goes on to lines 134 and 135, and line 135
    overwrites the unsettled amount of the session object that the call
    bound at line 121 with 0, whatever that amount is by then: nothing is
    subtracted, and what other calls added while the mint call was in
    flight, or between the lines 133 to 135, is dropped.  Line 134 sets
    [last_mint] to the call's [now].  This holds under every schedule of
    the other calls of [get_metrics]. *)
Theorem confirmed_settlement_overwrites_with_zero E (S : Fine.system) (n : nat)
    (f : Fine.frame) (amount : float) (i j k : Fine.input)
    (in_flight between last : list (nat * Fine.input))
    (tx_hash : string) (blockNumber token_amount : Z) :
  minting_enabled E = true ->
  token_amount_of amount = Returns token_amount ->
  0 < token_amount ->
  Io.course_for (Fine.wallet f) (Fine.chain i) = Receipt tx_hash 1 blockNumber ->
  (forall m, Fine.console i m = None) ->
  Fine.calls S !! n = Some (Fine.InMint f amount) ->
  (Fine.session_ f < length (Fine.objects (Fine.shared S)))%nat ->
  Forall (fun mi => mi.1 <> n) in_flight ->
  Forall (fun mi => mi.1 <> n) between ->
  Forall (fun mi => mi.1 <> n) last ->
  let S1 := Fine.run E in_flight S in
  let S2 := Fine.sys_step E n i S1 in
  let S3 := Fine.run E between S2 in
  let S4 := Fine.sys_step E n j S3 in
  let S5 := Fine.run E last S4 in
  let S6 := Fine.sys_step E n k S5 in
  Fine.calls S2 !! n = Some (Fine.AtSetLastMint f)
  /\ Fine.out (Fine.shared S2)
     = Fine.out (Fine.shared S1)
       ++ [PrintMinting amount (Fine.wallet f); PrintTx tx_hash;
           PrintConfirmed blockNumber; PrintEtherscan tx_hash]
  /\ Fine.calls S4 !! n = Some (Fine.AtZero f)
  /\ (exists s3,
        Fine.objects (Fine.shared S3) !! Fine.session_ f = Some s3
        /\ Fine.objects (Fine.shared S4) !! Fine.session_ f
           = Some {| start := start s3; earned := earned s3; last_mint := Fine.now f |})
  /\ Fine.calls S6 !! n = Some (Fine.AtReplyTotal f)
  /\ (exists s5,
        Fine.objects (Fine.shared S5) !! Fine.session_ f = Some s5
        /\ Fine.objects (Fine.shared S6) !! Fine.session_ f
           = Some {| start := start s5; earned := 0; last_mint := last_mint s5 |})
  /\ Fine.sessions (Fine.shared S6) = Fine.sessions (Fine.shared S5)
  /\ Fine.out (Fine.shared S6) = Fine.out (Fine.shared S5).
Proof.
  intros HE Hamount Hpos Hrun Hc Hn Hl H1 H2 H3 S1 S2 S3 S4 S5 S6.
  destruct (FineFacts.others_keep E in_flight S n _ H1 Hn) as [Hn1 Hl1]. fold S1 in Hn1, Hl1.
  destruct (FineFacts.sys_step_of E n i S1 _ Hn1) as [Hn2 Hs2]. fold S2 in Hn2, Hs2.
  pose proof (IoFacts.mint_tokens_written E (Fine.chain i) (Fine.wallet f) amount
                (Fine.console i) 0%nat Hc) as [Hls Hr].
  rewrite (mint_tokens_positive E _ _ _ _ HE Hamount Hpos), Hrun in Hls, Hr.
  simpl in Hls, Hr, Hn2, Hs2.
  destruct (Io.mint_tokens E (Fine.chain i) (Fine.wallet f) amount (Fine.console i) 0%nat)
    as [[n' ls] r].
  simpl in Hls, Hr. subst ls r. simpl in Hn2, Hs2.
  destruct (FineFacts.others_keep E between S2 n _ H2 Hn2) as [Hn3 Hl3].
  fold S3 in Hn3, Hl3.
  destruct (FineFacts.sys_step_of E n j S3 _ Hn3) as [Hn4 Hs4]. fold S4 in Hn4, Hs4.
  simpl in Hn4, Hs4.
  destruct (FineFacts.others_keep E last S4 n _ H3 Hn4) as [Hn5 Hl5].
  fold S5 in Hn5, Hl5.
  destruct (FineFacts.sys_step_of E n k S5 _ Hn5) as [Hn6 Hs6]. fold S6 in Hn6, Hs6.
  simpl in Hn6, Hs6.
  assert (Hlen2 : length (Fine.objects (Fine.shared S2))
                  = length (Fine.objects (Fine.shared S1))) by (by rewrite Hs2).
  assert (Hlen4 : length (Fine.objects (Fine.shared S4))
                  = length (Fine.objects (Fine.shared S3)))
    by (rewrite Hs4; simpl; by rewrite length_alter).
  destruct (lookup_lt_is_Some_2 (Fine.objects (Fine.shared S3)) (Fine.session_ f))
    as [s3 Hs3]; [lia|].
  destruct (lookup_lt_is_Some_2 (Fine.objects (Fine.shared S5)) (Fine.session_ f))
    as [s5 Hs5]; [lia|].
  split; [exact Hn2|]. split; [by rewrite Hs2|]. split; [exact Hn4|].
  split; [exists s3; split; [exact Hs3|];
          rewrite Hs4; exact (FineFacts.read_write _ _ _ _ Hs3)|].
  split; [exact Hn6|].
  split; [exists s5; split; [exact Hs5|];
          rewrite Hs6; exact (FineFacts.read_write _ _ _ _ Hs5)|].
  by rewrite Hs6.
Qed.

Lemma confirmed_settlement_overwrites_with_zero_witness :
  let S := Fine.run Sample.minting (repeat (0%nat, Flight.first) 9) Flight.two_calls in
  let S5 := Fine.run Sample.minting
              (repeat (1%nat, Flight.second) 9 ++ [(0%nat, Flight.first); (0%nat, Flight.first)])
              S in
  let S6 := Fine.sys_step Sample.minting 0 Flight.first S5 in
  exists s5,
    Fine.objects (Fine.shared S5) !! 0%nat = Some s5
    /\ Fine.objects (Fine.shared S6) !! 0%nat
       = Some {| start := start s5; earned := 0; last_mint := last_mint s5 |}.
Proof.
  intros S S5 S6.
  pose proof (confirmed_settlement_overwrites_with_zero Sample.minting S 0
                (Fine.frame_of Sample.minting SampleIo.holder_key 0 10 (new_session 0 0))
                0.15282534246575344 Flight.first Flight.first Flight.first
                (repeat (1%nat, Flight.second) 9) [] []
                "0xfeed" 17 152825342465753440
                eq_refl eq_refl eq_refl eq_refl (fun _ => eq_refl) eq_refl
                (le_n 1)
                ltac:(repeat constructor; discriminate)
                (Forall_nil_2 _) (Forall_nil_2 _)) as H.
  cbv zeta in H. destruct H as (_ & _ & _ & _ & _ & H & _).
  exact H.
Defined.

(** Two calls that both find the wallet missing each store a dictionary;
    call 1 stores last and its dictionary, the object 1, is the entry of
    [user_sessions], while call 0 has bound its own, the object 0, and goes
    on with it. *)
Example a_later_store_replaces_the_entry :
  let S := Fine.run Sample.minting Flight.both_create Flight.two_first_calls in
  Fine.calls S = [Fine.AtClockNow SampleIo.holder_key 0; Fine.AtClockNow SampleIo.holder_key 1]
  /\ Fine.sessions (Fine.shared S) !! SampleIo.holder_key = Some 1%nat
  /\ Fine.objects (Fine.shared S) = [new_session 10 10; new_session 11 11].
Proof. repeat split; vm_compute; reflexivity. Qed.

(** Property X18.  However calls of [get_metrics] are interleaved, access
    by access, no call fails at line 121: the key it looks up is in
    [user_sessions], since it was found at line 114 or stored at line 115
    and no call of [get_metrics] removes a key.  The dictionary a call has
    bound to [session] exists as long as the call runs, so every access is
    the access the handler makes, and the keys present at the beginning
    are present at the end.  (The entry under a key can be replaced by
    another call meanwhile.) *)
Theorem interleaved_calls_keep_their_sessions E schedule (S : Fine.system) :
  Fine.sound S ->
  let S' := Fine.run E schedule S in
  Fine.sound S'
  /\ (forall w : string,
        is_Some (Fine.sessions (Fine.shared S) !! w) ->
        is_Some (Fine.sessions (Fine.shared S') !! w))
  /\ (forall n t i, Fine.calls S' !! n = Some t -> Fine.proceeds E i t (Fine.shared S'))
  /\ (forall n w i, Fine.calls S' !! n = Some (Fine.AtBind w) ->
        (Fine.step E i (Fine.AtBind w) (Fine.shared S')).1
        <> Fine.Finished (Raises (KeyError w))).
Proof.
  intros HS S'. pose proof (FineFacts.run_stays_sound E schedule S HS) as HS'. fold S' in HS'.
  split; [exact HS'|].
  split; [intros w; apply FineFacts.run_keeps_keys|].
  assert (Hp : forall n t i, Fine.calls S' !! n = Some t -> Fine.proceeds E i t (Fine.shared S')).
  { intros n t i Hn. apply FineFacts.relies_proceeds.
    exact (Forall_lookup_1 _ _ _ _ (proj2 HS') Hn). }
  split; [exact Hp|].
  intros n w i Hn. destruct (Hp n _ i Hn) as [l ->]. discriminate.
Qed.

Lemma interleaved_calls_keep_their_sessions_witness :
  Fine.sound (Fine.run Sample.minting Flight.both_create Flight.two_first_calls).
Proof.
  apply (interleaved_calls_keep_their_sessions Sample.minting Flight.both_create
           Flight.two_first_calls).
  split.
  - intros w l Hw. vm_compute in Hw. discriminate.
  - repeat constructor.
Defined.
